(** * The [useWebSocket] hook of the camera control panel

    A shallow embedding of the connection hook (the revision with the
    heartbeat: [startPing]/[stopPing], the pong filter and close code 1000)
    together with the parts of the JavaScript runtime it drives: sockets,
    timers and promises.  Every callback of the hook is a function on an
    explicit [State]; the event loop is the fold [run] of [step] over a list
    of time-stamped events.

    [addLog], [subscribe] and [getResponseType] are the same in the earlier
    revision of the hook. *)

From Stdlib Require Import ZArith List String Bool Lia DecimalString.
From stdpp Require Import base gmap strings list fin_maps.

Set Warnings "-register-all".
Local Open Scope Z_scope.
Local Open Scope string_scope.

(** ** JavaScript values *)

(** Parsed JSON and the values the hook reads from it.  Numbers are the
    integers; no field read by the hook is fractional. *)
Inductive JsVal :=
| VUndef
| VNull
| VBool (b : bool)
| VNum (z : Z)
| VStr (s : string)
| VArr (items : list JsVal)
| VObj (entries : list (string * JsVal)).

Definition show_Z (z : Z) : string := NilZero.string_of_int (Z.to_int z).

Fixpoint join (sep : string) (l : list string) : string :=
  match l with
  | [] => EmptyString
  | [x] => x
  | x :: rest => x +:+ sep +:+ join sep rest
  end.

(** String conversion, as a template literal [`${v}`] performs it. *)
Fixpoint to_str (v : JsVal) : string :=
  match v with
  | VUndef => "undefined"
  | VNull => "null"
  | VBool true => "true"
  | VBool false => "false"
  | VNum z => show_Z z
  | VStr s => s
  | VArr items =>
      join "," (map (fun x => match x with
                              | VUndef | VNull => EmptyString
                              | _ => to_str x
                              end) items)
  | VObj _ => "[object Object]"
  end.

(** Truthiness, as [||] and [if] test it. *)
Definition truthy (v : JsVal) : bool :=
  match v with
  | VUndef | VNull => false
  | VBool b => b
  | VNum z => negb (Z.eqb z 0)
  | VStr s => negb (String.eqb s EmptyString)
  | VArr _ | VObj _ => true
  end.

Definition js_or (a b : JsVal) : JsVal := if truthy a then a else b.

Fixpoint assoc (k : string) (es : list (string * JsVal)) : JsVal :=
  match es with
  | [] => VUndef
  | (k', v) :: rest => if String.eqb k k' then v else assoc k rest
  end.

(** Property read [data.k].  [None] is the TypeError raised on [null] and
    [undefined]; primitives and arrays have none of the properties read
    here. *)
Definition prop (data : JsVal) (k : string) : option JsVal :=
  match data with
  | VUndef | VNull => None
  | VObj es => Some (assoc k es)
  | _ => Some VUndef
  end.

(** [Object.entries(v)], [None] when it throws. *)
Definition object_entries (v : JsVal) : option (list (string * JsVal)) :=
  match v with
  | VUndef | VNull => None
  | VObj es => Some es
  | VArr items => Some (imap (fun i x => (show_Z (Z.of_nat i), x)) items)
  | VStr s =>
      Some (imap (fun i c => (show_Z (Z.of_nat i), VStr (String c EmptyString)))
                 (list_ascii_of_string s))
  | VBool _ | VNum _ => Some []
  end.

(** [x === "lit"] for a string literal. *)
Definition is_str (v : JsVal) (lit : string) : bool :=
  match v with
  | VStr s => String.eqb s lit
  | _ => false
  end.

(** ** The event log (types/camera: [EventLog]) *)

Inductive LogType := Info | Success | Warning | Error.

Record EventLog := mkLog {
  log_id : string;
  log_timestamp : Z;
  log_type : LogType;
  log_message : string;
  log_camera_id : JsVal
}.

(** The entry [addLog] builds at clock reading [now]. *)
Definition newLog (now : Z) (type : LogType) (message : string)
    (camera_id : JsVal) : EventLog :=
  {| log_id := show_Z now;
     log_timestamp := now;
     log_type := type;
     log_message := message;
     log_camera_id := camera_id |}.

(** [prev => [newLog, ...prev].slice(0, 100)] *)
Definition push_log (entry : EventLog) (prev : list EventLog) : list EventLog :=
  take 100 (entry :: prev).

(** ** The static command table *)

(** A key of the [messageHandlers] map.  [subscribe] and the inbound [type]
    field use strings ([Tag]).  [Inherited name] is the member [name] of
    [Object.prototype], a function or an object: see [getResponseType]. *)
Inductive Key := Tag (s : string) | Inherited (name : string).

#[global] Instance Key_eq_dec : EqDecision Key.
Proof. solve_decision. Defined.

#[global] Instance Key_countable : Countable Key.
Proof.
  refine (inj_countable'
            (fun k => match k with Tag s => inl s | Inherited n => inr n end)
            (fun x => match x with inl s => Tag s | inr n => Inherited n end) _).
  by intros [].
Defined.

Definition responseMap : gmap string string :=
  list_to_map
    [ ("discover", "discovery_result");
      ("connect", "connect_result");
      ("disconnect", "disconnect_result");
      ("status", "status");
      ("start_continuous", "continuous_result");
      ("stop_continuous", "continuous_result");
      ("single_shot", "shot_result");
      ("set_transfer_path", "transfer_path_result");
      ("get_camera_settings", "camera_settings_result");
      ("set_camera_setting", "setting_result");
      ("sync_master_settings", "sync_result");
      ("enable_auto_sync", "auto_sync_result");
      ("get_available_settings", "available_settings_result") ].

(** [responseMap] is an object literal, so the read [responseMap[command]]
    that misses its own keys continues on [Object.prototype]. *)
Definition object_prototype : list string :=
  [ "constructor"; "hasOwnProperty"; "isPrototypeOf"; "propertyIsEnumerable";
    "toLocaleString"; "toString"; "valueOf"; "__proto__";
    "__defineGetter__"; "__defineSetter__";
    "__lookupGetter__"; "__lookupSetter__" ].

(** [responseMap[command] || null] *)
Definition getResponseType (command : string) : option Key :=
  match responseMap !! command with
  | Some tag => if truthy (VStr tag) then Some (Tag tag) else None
  | None =>
      if bool_decide (command ∈ object_prototype)
      then Some (Inherited command)
      else None
  end.

(** ** Runtime objects: sockets, promises, timers *)

Inductive ReadyState := CONNECTING | OPEN | CLOSING | CLOSED.

#[global] Instance ReadyState_eq_dec : EqDecision ReadyState.
Proof. solve_decision. Defined.

Record Socket := mkSocket {
  readyState : ReadyState;
  sent : list string;                  (* frames handed to [send], oldest first *)
  closed_with : option (Z * string)    (* the arguments of [close], once called *)
}.

(** The value of a rejection: [new Error(message)], or the exception caught
    around [JSON.stringify] and [send]. *)
Inductive Reason := ErrorMsg (message : string) | Caught.

Inductive Settled := Pending | Resolved (value : JsVal) | Rejected (reason : Reason).

(** The two closures stored in [messageHandlers]: the one-time handler that
    [sendMessage] builds around its [resolve], and a caller's callback given
    to [subscribe] ([throws]: whether the callback raises). *)
Inductive Handler :=
| OneShot (p : nat) (responseType : Key)
| Callback (h : nat) (throws : bool).

Inductive TimerAction :=
| Reconnect                                       (* onclose: setTimeout *)
| RequestTimeout (p : nat) (responseType : Key)   (* sendMessage: setTimeout *)
| Ping.                                           (* startPing: setInterval *)

#[global] Instance TimerAction_eq_dec : EqDecision TimerAction.
Proof. solve_decision. Defined.

Record Timer := mkTimer { due : Z; action : TimerAction }.

(** ** The state of one hook instance *)

Record State := mkState {
  isConnected : bool;
  isConnecting : bool;
  connectionError : option string;
  eventLogs : list EventLog;
  ws : option nat;                        (* ws.current, a socket id *)
  messageHandlers : gmap Key Handler;
  reconnectAttempts : Z;
  reconnectTimeout : option nat;          (* a timer id *)
  pingInterval : option nat;              (* a timer id *)
  sockets : gmap nat Socket;              (* every socket constructed *)
  timers : gmap nat Timer;                (* pending timers *)
  promises : gmap nat Settled;            (* promises returned by sendMessage *)
  calls : list (nat * JsVal);             (* subscriber callbacks run, newest first *)
  fresh : nat                             (* next socket, timer or promise id *)
}.

(** Ids start at 1: a timer id is tested for truthiness by [disconnect],
    [startPing] and [stopPing]. *)
Definition initial : State :=
  {| isConnected := false; isConnecting := false; connectionError := None;
     eventLogs := []; ws := None; messageHandlers := ∅;
     reconnectAttempts := 0; reconnectTimeout := None; pingInterval := None;
     sockets := ∅; timers := ∅; promises := ∅; calls := []; fresh := 1 |}.

Definition maxReconnectAttempts : Z := 5.

(** Field updates. *)

Definition set_isConnected (x : bool) (s : State) : State :=
  {| isConnected := x; isConnecting := isConnecting s;
     connectionError := connectionError s; eventLogs := eventLogs s;
     ws := ws s; messageHandlers := messageHandlers s;
     reconnectAttempts := reconnectAttempts s;
     reconnectTimeout := reconnectTimeout s; pingInterval := pingInterval s;
     sockets := sockets s; timers := timers s; promises := promises s;
     calls := calls s; fresh := fresh s |}.

Definition set_isConnecting (x : bool) (s : State) : State :=
  {| isConnected := isConnected s; isConnecting := x;
     connectionError := connectionError s; eventLogs := eventLogs s;
     ws := ws s; messageHandlers := messageHandlers s;
     reconnectAttempts := reconnectAttempts s;
     reconnectTimeout := reconnectTimeout s; pingInterval := pingInterval s;
     sockets := sockets s; timers := timers s; promises := promises s;
     calls := calls s; fresh := fresh s |}.

Definition set_connectionError (x : option string) (s : State) : State :=
  {| isConnected := isConnected s; isConnecting := isConnecting s;
     connectionError := x; eventLogs := eventLogs s; ws := ws s;
     messageHandlers := messageHandlers s;
     reconnectAttempts := reconnectAttempts s;
     reconnectTimeout := reconnectTimeout s; pingInterval := pingInterval s;
     sockets := sockets s; timers := timers s; promises := promises s;
     calls := calls s; fresh := fresh s |}.

Definition set_eventLogs (x : list EventLog) (s : State) : State :=
  {| isConnected := isConnected s; isConnecting := isConnecting s;
     connectionError := connectionError s; eventLogs := x; ws := ws s;
     messageHandlers := messageHandlers s;
     reconnectAttempts := reconnectAttempts s;
     reconnectTimeout := reconnectTimeout s; pingInterval := pingInterval s;
     sockets := sockets s; timers := timers s; promises := promises s;
     calls := calls s; fresh := fresh s |}.

Definition set_ws (x : option nat) (s : State) : State :=
  {| isConnected := isConnected s; isConnecting := isConnecting s;
     connectionError := connectionError s; eventLogs := eventLogs s; ws := x;
     messageHandlers := messageHandlers s;
     reconnectAttempts := reconnectAttempts s;
     reconnectTimeout := reconnectTimeout s; pingInterval := pingInterval s;
     sockets := sockets s; timers := timers s; promises := promises s;
     calls := calls s; fresh := fresh s |}.

Definition set_messageHandlers (x : gmap Key Handler) (s : State) : State :=
  {| isConnected := isConnected s; isConnecting := isConnecting s;
     connectionError := connectionError s; eventLogs := eventLogs s;
     ws := ws s; messageHandlers := x;
     reconnectAttempts := reconnectAttempts s;
     reconnectTimeout := reconnectTimeout s; pingInterval := pingInterval s;
     sockets := sockets s; timers := timers s; promises := promises s;
     calls := calls s; fresh := fresh s |}.

Definition set_reconnectAttempts (x : Z) (s : State) : State :=
  {| isConnected := isConnected s; isConnecting := isConnecting s;
     connectionError := connectionError s; eventLogs := eventLogs s;
     ws := ws s; messageHandlers := messageHandlers s;
     reconnectAttempts := x; reconnectTimeout := reconnectTimeout s;
     pingInterval := pingInterval s; sockets := sockets s;
     timers := timers s; promises := promises s; calls := calls s;
     fresh := fresh s |}.

Definition set_reconnectTimeout (x : option nat) (s : State) : State :=
  {| isConnected := isConnected s; isConnecting := isConnecting s;
     connectionError := connectionError s; eventLogs := eventLogs s;
     ws := ws s; messageHandlers := messageHandlers s;
     reconnectAttempts := reconnectAttempts s; reconnectTimeout := x;
     pingInterval := pingInterval s; sockets := sockets s;
     timers := timers s; promises := promises s; calls := calls s;
     fresh := fresh s |}.

Definition set_pingInterval (x : option nat) (s : State) : State :=
  {| isConnected := isConnected s; isConnecting := isConnecting s;
     connectionError := connectionError s; eventLogs := eventLogs s;
     ws := ws s; messageHandlers := messageHandlers s;
     reconnectAttempts := reconnectAttempts s;
     reconnectTimeout := reconnectTimeout s; pingInterval := x;
     sockets := sockets s; timers := timers s; promises := promises s;
     calls := calls s; fresh := fresh s |}.

Definition set_sockets (x : gmap nat Socket) (s : State) : State :=
  {| isConnected := isConnected s; isConnecting := isConnecting s;
     connectionError := connectionError s; eventLogs := eventLogs s;
     ws := ws s; messageHandlers := messageHandlers s;
     reconnectAttempts := reconnectAttempts s;
     reconnectTimeout := reconnectTimeout s; pingInterval := pingInterval s;
     sockets := x; timers := timers s; promises := promises s;
     calls := calls s; fresh := fresh s |}.

Definition set_timers (x : gmap nat Timer) (s : State) : State :=
  {| isConnected := isConnected s; isConnecting := isConnecting s;
     connectionError := connectionError s; eventLogs := eventLogs s;
     ws := ws s; messageHandlers := messageHandlers s;
     reconnectAttempts := reconnectAttempts s;
     reconnectTimeout := reconnectTimeout s; pingInterval := pingInterval s;
     sockets := sockets s; timers := x; promises := promises s;
     calls := calls s; fresh := fresh s |}.

Definition set_promises (x : gmap nat Settled) (s : State) : State :=
  {| isConnected := isConnected s; isConnecting := isConnecting s;
     connectionError := connectionError s; eventLogs := eventLogs s;
     ws := ws s; messageHandlers := messageHandlers s;
     reconnectAttempts := reconnectAttempts s;
     reconnectTimeout := reconnectTimeout s; pingInterval := pingInterval s;
     sockets := sockets s; timers := timers s; promises := x;
     calls := calls s; fresh := fresh s |}.

Definition set_calls (x : list (nat * JsVal)) (s : State) : State :=
  {| isConnected := isConnected s; isConnecting := isConnecting s;
     connectionError := connectionError s; eventLogs := eventLogs s;
     ws := ws s; messageHandlers := messageHandlers s;
     reconnectAttempts := reconnectAttempts s;
     reconnectTimeout := reconnectTimeout s; pingInterval := pingInterval s;
     sockets := sockets s; timers := timers s; promises := promises s;
     calls := x; fresh := fresh s |}.

Definition set_fresh (x : nat) (s : State) : State :=
  {| isConnected := isConnected s; isConnecting := isConnecting s;
     connectionError := connectionError s; eventLogs := eventLogs s;
     ws := ws s; messageHandlers := messageHandlers s;
     reconnectAttempts := reconnectAttempts s;
     reconnectTimeout := reconnectTimeout s; pingInterval := pingInterval s;
     sockets := sockets s; timers := timers s; promises := promises s;
     calls := calls s; fresh := x |}.

(** ** Runtime primitives *)

Definition addLog (now : Z) (type : LogType) (message : string)
    (camera_id : JsVal) (s : State) : State :=
  set_eventLogs (push_log (newLog now type message camera_id) (eventLogs s)) s.

(** [new Promise(...)]: the promise gets the next id. *)
Definition new_promise (s : State) : State :=
  set_fresh (S (fresh s)) (set_promises (<[fresh s := Pending]> (promises s)) s).

(** [resolve] and [reject] act on a pending promise only. *)
Definition settle (p : nat) (outcome : Settled) (s : State) : State :=
  match promises s !! p with
  | Some Pending => set_promises (<[p := outcome]> (promises s)) s
  | _ => s
  end.

Definition resolve (p : nat) (value : JsVal) : State -> State :=
  settle p (Resolved value).

Definition reject (p : nat) (reason : Reason) : State -> State :=
  settle p (Rejected reason).

(** [setTimeout(action, delay)] and [setInterval]; the id is [fresh s]. *)
Definition setTimeout (now delay : Z) (a : TimerAction) (s : State) : State :=
  set_fresh (S (fresh s))
    (set_timers (<[fresh s := mkTimer (now + delay) a]> (timers s)) s).

Definition clearTimeout (id : nat) (s : State) : State :=
  set_timers (delete id (timers s)) s.

Definition socket_state (s : State) (sock : nat) : option ReadyState :=
  readyState <$> sockets s !! sock.

Definition set_readyState (sock : nat) (r : ReadyState) (s : State) : State :=
  set_sockets
    (alter (fun so => mkSocket r (sent so) (closed_with so)) sock (sockets s)) s.

(** [socket.send(frame)] on an open socket. *)
Definition socket_send (sock : nat) (frame : string) (s : State) : State :=
  set_sockets
    (alter (fun so => mkSocket (readyState so) (sent so ++ [frame]) (closed_with so))
       sock
       (sockets s)) s.

(** [socket.close(code, reason)]: a socket that is connecting or open starts
    closing; its close event arrives later. *)
Definition socket_close (sock : nat) (code : Z) (reason : string)
    (s : State) : State :=
  match socket_state s sock with
  | Some CONNECTING | Some OPEN =>
      set_sockets
        (alter (fun so => mkSocket CLOSING (sent so) (Some (code, reason))) sock
           (sockets s)) s
  | _ => s
  end.

(** The arguments with which [close] was called on the socket. *)
Definition close_request (s : State) (sock : nat) : option (Z * string) :=
  sockets s !! sock ≫= closed_with.

(** [ws.current?.readyState === WebSocket.OPEN] *)
Definition ws_open (s : State) : bool :=
  match ws s with
  | Some sock =>
      match socket_state s sock with
      | Some OPEN => true
      | _ => false
      end
  | None => false
  end.

Definition dq : string := String (Ascii.ascii_of_nat 34) EmptyString.

(** [JSON.stringify({ command: "ping" })] *)
Definition ping_frame : string :=
  "{" +:+ dq +:+ "command" +:+ dq +:+ ":" +:+ dq +:+ "ping" +:+ dq +:+ "}".

(** [{ success: true }] *)
Definition ack : JsVal := VObj [("success", VBool true)].

(** An outbound message: its [command] property, if it has one, and the text
    [JSON.stringify] gives for it ([None]: it throws). *)
Record OutMessage := mkOut {
  out_command : option JsVal;
  out_json : option string
}.

(** ** The hook *)

Section Hook.

(** Whether [new WebSocket(url)] accepts the hook's [url]. *)
Variable url_ok : bool.

Definition stopPing (s : State) : State :=
  match pingInterval s with
  | Some id => set_pingInterval None (clearTimeout id s)
  | None => s
  end.

Definition startPing (now : Z) (s : State) : State :=
  let s1 := match pingInterval s with
            | Some id => clearTimeout id s
            | None => s
            end in
  set_pingInterval (Some (fresh s1)) (setTimeout now 30000 Ping s1).

(** One tick of the ping interval. *)
Definition ping_tick (s : State) : State :=
  match ws s with
  | Some sock => if ws_open s then socket_send sock ping_frame s else s
  | None => s
  end.

Definition connect (now : Z) (s : State) : State :=
  if ws_open s then s
  else
    let s1 := set_connectionError None (set_isConnecting true s) in
    if url_ok then
      set_ws (Some (fresh s1))
        (set_fresh (S (fresh s1))
           (set_sockets (<[fresh s1 := mkSocket CONNECTING [] None]> (sockets s1)) s1))
    else
      addLog now Error "Failed to create WebSocket connection" VUndef
        (set_connectionError (Some "Failed to create WebSocket connection")
           (set_isConnecting false s1)).

Definition onopen (now : Z) (s : State) : State :=
  startPing now
    (addLog now Success "Connected to camera server" VUndef
       (set_reconnectAttempts 0
          (set_connectionError None
             (set_isConnecting false (set_isConnected true s))))).

(** The [try] block of [onmessage] ends normally or by an exception. *)
Inductive Outcome := Done (s : State) | Thrown (s : State).

Definition when (c : bool) (f : State -> State) (s : State) : State :=
  if c then f s else s.

(** [const handler = messageHandlers.current.get(data.type);
     if (handler) handler(data)] *)
Definition dispatch (data ty : JsVal) (s : State) : Outcome :=
  match ty with
  | VStr t =>
      match messageHandlers s !! Tag t with
      | Some (OneShot p responseType) =>
          Done (resolve p data
                  (set_messageHandlers (delete responseType (messageHandlers s)) s))
      | Some (Callback h throws) =>
          let s1 := set_calls ((h, data) :: calls s) s in
          if throws then Thrown s1 else Done s1
      | None => Done s
      end
  | _ => Done s
  end.

(** [parsed] is [JSON.parse(event.data)], [None] when it throws. *)
Definition onmessage (now : Z) (parsed : option JsVal) (s : State) : State :=
  let failed := addLog now Error "Failed to parse server message" VUndef in
  match parsed with
  | None => failed s
  | Some data =>
      match prop data "type" with
      | None => failed s
      | Some ty =>
          let get k := default VUndef (prop data k) in
          if is_str ty "pong" || is_str (get "command") "pong" then s
          else
            let s1 :=
              when (is_str ty "welcome")
                (addLog now Info ("Welcome: " +:+ to_str (get "message")) VUndef) s in
            let s2 :=
              when (is_str ty "camera_connected")
                (addLog now Success
                   ("Camera connected: " +:+ to_str (js_or (get "alias") (get "model")))
                   (get "camera_id")) s1 in
            let s3 :=
              when (is_str ty "camera_disconnected")
                (addLog now Warning
                   ("Camera disconnected: " +:+ to_str (get "alias"))
                   (get "camera_id")) s2 in
            let s4 :=
              when (is_str ty "image_captured")
                (addLog now Success
                   ("Image captured by " +:+ to_str (get "alias"))
                   (get "camera_id")) s3 in
            let s5 :=
              when (is_str ty "camera_error" || is_str ty "capture_error")
                (addLog now Error
                   (to_str (get "alias") +:+ ": " +:+ to_str (get "error"))
                   (get "camera_id")) s4 in
            let synced :=
              if is_str ty "settings_synchronized" then
                match object_entries (get "synced_settings") with
                | Some es =>
                    let settingsStr :=
                      join ", " (map (fun kv => fst kv +:+ ": " +:+ to_str (snd kv)) es) in
                    Some (addLog now Success
                            ("Settings synchronized: " +:+ settingsStr) VUndef s5)
                | None => None
                end
              else Some s5 in
            match synced with
            | None => failed s5
            | Some s6 =>
                let s7 :=
                  when (is_str ty "setting_changed")
                    (addLog now Info
                       (to_str (get "alias") +:+ ": " +:+ to_str (get "setting_type")
                        +:+ " changed from " +:+ to_str (get "old_value")
                        +:+ " to " +:+ to_str (get "new_value"))
                       (get "camera_id")) s6 in
                match dispatch data ty s7 with
                | Done s8 => s8
                | Thrown s8 => failed s8
                end
            end
      end
  end.

Definition onclose (now code : Z) (reason : string) (s : State) : State :=
  let s1 := stopPing (set_isConnecting false (set_isConnected false s)) in
  if negb (Z.eqb code 1000) && Z.ltb (reconnectAttempts s1) maxReconnectAttempts
  then
    let delay := 2 ^ reconnectAttempts s1 * 1000 in
    let s2 :=
      addLog now Warning
        ("Connection lost ("
         +:+ to_str (js_or (VStr reason) (VStr "Unknown reason"))
         +:+ "). Reconnecting in " +:+ show_Z (delay / 1000) +:+ "s...")
        VUndef s1 in
    set_reconnectTimeout (Some (fresh s2)) (setTimeout now delay Reconnect s2)
  else if Z.leb maxReconnectAttempts (reconnectAttempts s1) then
    addLog now Error "Connection failed after multiple attempts" VUndef
      (set_connectionError (Some "Maximum reconnection attempts reached") s1)
  else
    addLog now Info "Connection closed normally" VUndef s1.

Definition onerror (now : Z) (s : State) : State :=
  addLog now Error "WebSocket connection error" VUndef
    (set_connectionError (Some "WebSocket connection error") s).

Definition disconnect (now : Z) (s : State) : State :=
  let s1 := match reconnectTimeout s with
            | Some id => clearTimeout id s
            | None => s
            end in
  let s2 := stopPing s1 in
  let s3 := match ws s2 with
            | Some sock =>
                set_ws None (socket_close sock 1000 "User disconnect" s2)
            | None => s2
            end in
  addLog now Info "Disconnected from camera server" VUndef
    (set_reconnectAttempts 0
       (set_isConnecting false (set_isConnected false s3))).

(** The promise that [sendMessage] returns from state [s] has id [fresh s]. *)
Definition sendMessage (now : Z) (message : OutMessage) (s : State) : State :=
  let p := fresh s in
  let s0 := new_promise s in
  match ws s0 with
  | Some sock =>
      if ws_open s0 then
        match out_json message with
        | None => reject p Caught s0
        | Some messageStr =>
            let s1 := socket_send sock messageStr s0 in
            match out_command message with
            | Some command =>
                if negb (is_str command "ping") then
                  match getResponseType (to_str command) with
                  | Some responseType =>
                      setTimeout now 10000 (RequestTimeout p responseType)
                        (set_messageHandlers
                           (<[responseType := OneShot p responseType]>
                              (messageHandlers s1)) s1)
                  | None => resolve p ack s1
                  end
                else resolve p ack s1
            | None => resolve p ack s1
            end
        end
      else reject p (ErrorMsg "WebSocket is not connected") s0
  | None => reject p (ErrorMsg "WebSocket is not connected") s0
  end.

(** The callback that [sendMessage] hands to [setTimeout]. *)
Definition request_timeout (p : nat) (responseType : Key) (s : State) : State :=
  match messageHandlers s !! responseType with
  | Some _ =>
      reject p (ErrorMsg "Request timeout")
        (set_messageHandlers (delete responseType (messageHandlers s)) s)
  | None => s
  end.

Definition subscribe (messageType : string) (h : nat) (throws : bool)
    (s : State) : State :=
  set_messageHandlers
    (<[Tag messageType := Callback h throws]> (messageHandlers s)) s.

(** The function that [subscribe messageType] returns. *)
Definition unsubscribe (messageType : string) (s : State) : State :=
  set_messageHandlers (delete (Tag messageType) (messageHandlers s)) s.

(** ** The event loop *)

Inductive Event :=
| Connect
| Disconnect
| SendMessage (message : OutMessage)
| Subscribe (messageType : string) (h : nat) (throws : bool)
| Unsubscribe (messageType : string)
| AddLog (type : LogType) (message : string) (camera_id : JsVal)
| SockOpen (sock : nat)
| SockMessage (sock : nat) (parsed : option JsVal)
| SockClose (sock : nat) (code : Z) (reason : string)
| SockError (sock : nat)
| TimerFire (id : nat).

(** A timer runs when the clock has reached its due time.  A timeout is
    removed as it runs; the ping interval is armed again. *)
Definition fire (now : Z) (id : nat) (s : State) : State :=
  match timers s !! id with
  | Some t =>
      if Z.leb (due t) now then
        match action t with
        | Reconnect =>
            let s1 := clearTimeout id s in
            connect now (set_reconnectAttempts (reconnectAttempts s1 + 1) s1)
        | RequestTimeout p responseType =>
            request_timeout p responseType (clearTimeout id s)
        | Ping =>
            ping_tick
              (set_timers (<[id := mkTimer (due t + 30000) Ping]> (timers s)) s)
        end
      else s
  | None => s
  end.

(** The socket delivers [open] while connecting, [message] while open or
    closing, [error] and [close] until it is closed. *)
Definition step (now : Z) (e : Event) (s : State) : State :=
  match e with
  | Connect => connect now s
  | Disconnect => disconnect now s
  | SendMessage message => sendMessage now message s
  | Subscribe messageType h throws => subscribe messageType h throws s
  | Unsubscribe messageType => unsubscribe messageType s
  | AddLog type message camera_id => addLog now type message camera_id s
  | SockOpen sock =>
      match socket_state s sock with
      | Some CONNECTING => onopen now (set_readyState sock OPEN s)
      | _ => s
      end
  | SockMessage sock parsed =>
      match socket_state s sock with
      | Some OPEN | Some CLOSING => onmessage now parsed s
      | _ => s
      end
  | SockClose sock code reason =>
      match socket_state s sock with
      | Some CONNECTING | Some OPEN | Some CLOSING =>
          onclose now code reason (set_readyState sock CLOSED s)
      | _ => s
      end
  | SockError sock =>
      match socket_state s sock with
      | Some CONNECTING | Some OPEN | Some CLOSING => onerror now s
      | _ => s
      end
  | TimerFire id => fire now id s
  end.

Fixpoint run (trace : list (Z * Event)) (s : State) : State :=
  match trace with
  | [] => s
  | (now, e) :: rest => run rest (step now e s)
  end.

End Hook.

(** ** Observations *)

Definition promise (s : State) (p : nat) : option Settled := promises s !! p.

(** ** Predicates used in the statements *)

(** The capacity of the event log. *)
Definition bounded (s : State) : Prop := (length (eventLogs s) <= 100)%nat.

(** One call [addLog(type, message, camera_id)] at clock reading [now]. *)
Definition LogCall : Type := Z * LogType * string * JsVal.

Definition entry_of (c : LogCall) : EventLog :=
  let '(now, type, message, camera_id) := c in newLog now type message camera_id.

Definition log_event (c : LogCall) : Z * Event :=
  let '(now, type, message, camera_id) := c in (now, AddLog type message camera_id).

(** [data.type === "pong" || data.command === "pong"], on a payload whose
    properties can be read. *)
Definition is_pong (data : JsVal) : bool :=
  match prop data "type", prop data "command" with
  | Some ty, Some command => is_str ty "pong" || is_str command "pong"
  | _, _ => false
  end.

(** The message carries a command for which [sendMessage] awaits no reply:
    no [command] property, the ping, or a command for which
    [getResponseType] gives [null]. *)
Definition no_reply_expected (message : OutMessage) : Prop :=
  match out_command message with
  | None => True
  | Some command =>
      is_str command "ping" = true \/ getResponseType (to_str command) = None
  end.

(** The socket in [ws.current] is open. *)
Definition connected_to (s : State) (sock : nat) : Prop :=
  ws s = Some sock /\ socket_state s sock = Some OPEN.

(** A reconnect is pending at time [at]. *)
Definition reconnect_scheduled (s : State) (id : nat) (at_ : Z) : Prop :=
  timers s !! id = Some (mkTimer at_ Reconnect).

(** No reconnect is pending. *)
Definition no_reconnect_pending (s : State) : Prop :=
  map_Forall (fun _ t => action t <> Reconnect) (timers s).

(** Every socket ever constructed is closed. *)
Definition all_closed (s : State) : Prop :=
  map_Forall (fun _ so => readyState so = CLOSED) (sockets s).

(** Every socket but [sock] is closed. *)
Definition others_closed (sock : nat) (s : State) : Prop :=
  map_Forall (fun other so => other <> sock -> readyState so = CLOSED) (sockets s).

(** The state in which automatic reconnection has stopped. *)
Definition idle (s : State) : Prop :=
  no_reconnect_pending s /\ all_closed s.

#[global] Instance no_reconnect_pending_dec s : Decision (no_reconnect_pending s).
Proof. unfold no_reconnect_pending. apply _. Defined.

#[global] Instance all_closed_dec s : Decision (all_closed s).
Proof. unfold all_closed. apply _. Defined.

#[global] Instance others_closed_dec sock s : Decision (others_closed sock s).
Proof. unfold others_closed. apply _. Defined.

#[global] Instance idle_dec s : Decision (idle s).
Proof. unfold idle. apply _. Defined.

Definition is_connect (e : Event) : bool :=
  match e with Connect => true | _ => false end.

(** The closure holds the [resolve] or the [reject] of promise [p]. *)
Definition handler_settles (p : nat) (h : Handler) : bool :=
  match h with
  | OneShot q _ => Nat.eqb q p
  | Callback _ _ => false
  end.

Definition timer_settles (p : nat) (t : Timer) : bool :=
  match action t with
  | RequestTimeout q _ => Nat.eqb q p
  | _ => false
  end.

(** Promise [p] is pending and nothing can settle it any more: no handler in
    the table and no pending timer holds its [resolve] or [reject]. *)
Definition stranded (p : nat) (s : State) : Prop :=
  promise s p = Some Pending
  /\ (p < fresh s)%nat
  /\ map_Forall (fun _ h => handler_settles p h = false) (messageHandlers s)
  /\ map_Forall (fun _ t => timer_settles p t = false) (timers s).

#[global] Instance pending_dec (o : option Settled) : Decision (o = Some Pending).
Proof.
  refine (match o with Some Pending => left _ | _ => right _ end);
    [reflexivity | discriminate ..].
Defined.

#[global] Instance stranded_dec p s : Decision (stranded p s).
Proof. unfold stranded. apply _. Defined.

(** ** States and messages used in the examples *)

(** The hook after [connect()] and the socket's [open] event. *)
Definition connected : State :=
  run true [(0, Connect); (1, SockOpen 1)] initial.

(** [connected], with a subscriber registered for the tag [pong]. *)
Definition pong_state : State := subscribe "pong" 7 false connected.

Definition command (name : string) : OutMessage :=
  mkOut (Some (VStr name))
        (Some ("{" +:+ dq +:+ "command" +:+ dq +:+ ":" +:+ dq +:+ name +:+ dq +:+ "}")).

Definition frame (tag : string) : JsVal := VObj [("type", VStr tag)].

(** Five reconnect attempts that all fail: each socket closes abnormally
    (code 1006) and the reconnect timer runs when it is due. *)
Definition failed_retries : list (Z * Event) :=
  [ (100, SockClose 1 1006 EmptyString);   (1100, TimerFire 3);
    (1200, SockClose 4 1006 EmptyString);  (3200, TimerFire 5);
    (3300, SockClose 6 1006 EmptyString);  (7300, TimerFire 7);
    (7400, SockClose 8 1006 EmptyString);  (15400, TimerFire 9);
    (15500, SockClose 10 1006 EmptyString); (31500, TimerFire 11) ].

(** The state in which the fifth attempt is under way. *)
Definition last_attempt : State := run true failed_retries connected.

(** A request for the current status, sent on the open socket at time 3:
    its promise is 3, its timeout timer is 4. *)
Definition one_request : State := sendMessage 3 (command "status") connected.

(** A subscriber for [status], then a [status] request, then the reply. *)
Definition subscribed_request : list (Z * Event) :=
  [ (2, Subscribe "status" 7 false);
    (3, SendMessage (command "status"));
    (4, SockMessage 1 (Some (frame "status"))) ].

(** Two requests with the same reply tag (promises 3 and 5, timers 4 and 6),
    one reply, then both timeouts. *)
Definition two_requests_one_reply : list (Z * Event) :=
  [ (3, SendMessage (command "get_camera_settings"));
    (4, SendMessage (command "get_camera_settings"));
    (5, SockMessage 1 (Some (frame "camera_settings_result")));
    (10003, TimerFire 4);
    (10004, TimerFire 6) ].

(** Two requests with the same reply tag, five seconds apart, and no reply. *)
Definition two_requests_no_reply : list (Z * Event) :=
  [ (3, SendMessage (command "status"));
    (5003, SendMessage (command "status"));
    (10003, TimerFire 4);
    (15003, TimerFire 6) ].

(** The request is outstanding: its promise is pending and its one-time
    handler is registered. *)
Definition outstanding (s : State) (p : nat) (responseType : Key) : Prop :=
  promise s p = Some Pending
  /\ messageHandlers s !! responseType = Some (OneShot p responseType).

(** [n] calls of [addLog], the [i]-th at time [i] with message [i]. *)
Definition numbered (n : nat) : list LogCall :=
  map (fun i => (Z.of_nat i, Info, show_Z (Z.of_nat i), VUndef)) (seq 0 n).

(** ** Further predicates on the hook *)

(** The eight tests on [data.type] under which [onmessage] writes a log
    entry. *)
Definition logs_entry (ty : JsVal) : bool :=
  is_str ty "welcome" || is_str ty "camera_connected"
  || is_str ty "camera_disconnected" || is_str ty "image_captured"
  || is_str ty "camera_error" || is_str ty "capture_error"
  || is_str ty "settings_synchronized" || is_str ty "setting_changed".

(** [Object.entries(data.synced_settings)] is not evaluated or returns. *)
Definition entries_readable (data ty : JsVal) : Prop :=
  is_str ty "settings_synchronized" = true ->
  is_Some (object_entries (default VUndef (prop data "synced_settings"))).

(** [s'] is [s] but for its event log. *)
Definition only_logs (s s' : State) : Prop := s' = set_eventLogs (eventLogs s') s.

(** Every pending ping timer is the one held in [pingInterval]. *)
Definition ping_unique (s : State) : Prop :=
  map_Forall (fun id t => action t = Ping -> pingInterval s = Some id) (timers s).

(** A value that a template literal converts without calling user code:
    anything but an object or an array. *)
Definition primitive (v : JsVal) : bool :=
  match v with
  | VArr _ | VObj _ => false
  | _ => true
  end.

(** The values that the template literals of [onmessage] interpolate for a
    frame [data] whose [type] is [ty]. *)
Definition printed (data ty : JsVal) : list JsVal :=
  let get k := default VUndef (prop data k) in
  ((if is_str ty "welcome" then [get "message"] else [])
   ++ (if is_str ty "camera_connected" then [js_or (get "alias") (get "model")] else [])
   ++ (if is_str ty "camera_disconnected" then [get "alias"] else [])
   ++ (if is_str ty "image_captured" then [get "alias"] else [])
   ++ (if is_str ty "camera_error" || is_str ty "capture_error"
       then [get "alias"; get "error"] else [])
   ++ (if is_str ty "settings_synchronized"
       then match object_entries (get "synced_settings") with
            | Some es => map snd es
            | None => []
            end
       else [])
   ++ (if is_str ty "setting_changed"
       then [get "alias"; get "setting_type"; get "old_value"; get "new_value"]
       else []))%list.

(** No template literal of [onmessage] throws on the frame: every value it
    interpolates is primitive. *)
Definition printable (data ty : JsVal) : Prop :=
  forallb primitive (printed data ty) = true.

(** The entry that every failure inside [onmessage] writes. *)
Definition parse_failure (now : Z) : EventLog :=
  newLog now Error "Failed to parse server message" VUndef.

(** A request for [name] with serialisation [text]. *)
Definition request (name text : string) : OutMessage :=
  mkOut (Some (VStr name)) (Some text).

(** ** The earlier revision of the hook

    The first [useWebSocket] of the file has no heartbeat, closes without a
    code, reconnects after every close, and settles a promise only through a
    reply or a timeout.  [connect], [addLog], [subscribe], [getResponseType]
    and the timer callbacks are as above. *)

Module Earlier.

Definition onopen (now : Z) (s : State) : State :=
  addLog now Success "Connected to camera server" VUndef
    (set_reconnectAttempts 0
       (set_connectionError None
          (set_isConnecting false (set_isConnected true s)))).

Definition onclose (now : Z) (s : State) : State :=
  let s1 := set_isConnecting false (set_isConnected false s) in
  if Z.ltb (reconnectAttempts s1) maxReconnectAttempts then
    let delay := 2 ^ reconnectAttempts s1 * 1000 in
    let s2 :=
      addLog now Warning
        ("Connection lost. Reconnecting in " +:+ show_Z (delay / 1000) +:+ "s...")
        VUndef s1 in
    set_reconnectTimeout (Some (fresh s2)) (setTimeout now delay Reconnect s2)
  else
    addLog now Error "Connection failed after multiple attempts" VUndef
      (set_connectionError (Some "Maximum reconnection attempts reached") s1).

(** [socket.close()], without arguments. *)
Definition socket_close (sock : nat) (s : State) : State :=
  match socket_state s sock with
  | Some CONNECTING | Some OPEN => set_readyState sock CLOSING s
  | _ => s
  end.

Definition disconnect (now : Z) (s : State) : State :=
  let s1 := match reconnectTimeout s with
            | Some id => clearTimeout id s
            | None => s
            end in
  let s2 := match ws s1 with
            | Some sock => set_ws None (socket_close sock s1)
            | None => s1
            end in
  addLog now Info "Disconnected from camera server" VUndef
    (set_reconnectAttempts 0
       (set_isConnecting false (set_isConnected false s2))).

Definition sendMessage (now : Z) (message : OutMessage) (s : State) : State :=
  let p := fresh s in
  let s0 := new_promise s in
  match ws s0 with
  | Some sock =>
      if ws_open s0 then
        match out_json message with
        | None => reject p Caught s0
        | Some messageStr =>
            let s1 := socket_send sock messageStr s0 in
            match out_command message with
            | Some command =>
                match getResponseType (to_str command) with
                | Some responseType =>
                    setTimeout now 10000 (RequestTimeout p responseType)
                      (set_messageHandlers
                         (<[responseType := OneShot p responseType]>
                            (messageHandlers s1)) s1)
                | None => s1
                end
            | None => s1
            end
        end
      else reject p (ErrorMsg "WebSocket is not connected") s0
  | None => reject p (ErrorMsg "WebSocket is not connected") s0
  end.

End Earlier.

(** ** ConnectionStatus

    The panel renders the hook's [isConnected], [isConnecting] and
    [connectionError]. *)

Module ConnectionStatus.

(** [connectionError], when it is truthy. *)
Definition shown_error (s : State) : option string :=
  match connectionError s with
  | Some e => if truthy (VStr e) then Some e else None
  | None => None
  end.

Definition getStatusColor (s : State) : string :=
  match shown_error s with
  | Some _ => "text-red-500"
  | None =>
      if isConnected s then "text-green-500"
      else if isConnecting s then "text-yellow-500"
      else "text-gray-500"
  end.

Definition getStatusText (s : State) : string :=
  match shown_error s with
  | Some e => "Error: " +:+ e
  | None =>
      if isConnected s then "Connected to Camera Server"
      else if isConnecting s then "Connecting..."
      else "Disconnected"
  end.

(** [!isConnected && !isConnecting]: the Connect button is rendered. *)
Definition connect_button (s : State) : bool :=
  negb (isConnected s) && negb (isConnecting s).

(** [isConnected]: the Disconnect button is rendered. *)
Definition disconnect_button (s : State) : bool := isConnected s.

End ConnectionStatus.

(** ** App: the requests of the control panel

    Camera ids, indices and intervals are integers here. *)

Module App.

(** [Number.MAX_SAFE_INTEGER].  Up to it, in absolute value, every integer
    is a number and [toString] gives its decimal digits. *)
Definition MAX_SAFE_INTEGER : Z := 9007199254740991.

Definition safe_integer (n : Z) : Prop := Z.abs n <= MAX_SAFE_INTEGER.

(** [b.toString()] *)
Definition bool_toString (b : bool) : string := if b then "true" else "false".

(** The [options] of [handleConnectCamera]; [None] is an absent field. *)
Record ConnectOptions := mkConnectOptions {
  position : option string;
  alias : option string;
  setMaster : option bool
}.

(** The [options] of [handleSetCameraSetting]. *)
Record SettingOptions := mkSettingOptions {
  cameraId : option Z;
  applyToAll : option bool;
  syncToMaster : option bool
}.

Inductive Request :=
| Status
| Discover
| ConnectCamera (camera_index : Z) (options : ConnectOptions)
| SingleShot (camera : Z)
| StartContinuous (camera intervalSeconds : Z)
| StopContinuous (camera : Z)
| DisconnectCamera (camera : Z)
| SetTransferPath (path : string)
| GetCameraSettings (camera : Z)
| SetCameraSetting (settingType settingValue : string) (options : SettingOptions)
| SyncMasterSettings (settingsToSync : option string)
| EnableAutoSync (enabled : bool) (intervalMs : option Z) (settingsToSync : option string)
| GetAvailableSettings (camera : Z) (settingType : string).

(** [if (x) obj.k = x] for an optional string. *)
Definition string_field (k : string) (x : option string) : list (string * JsVal) :=
  match x with
  | Some v => if truthy (VStr v) then [(k, VStr v)] else []
  | None => []
  end.

(** [if (x) obj.k = x.toString()] for an optional number. *)
Definition number_field (k : string) (x : option Z) : list (string * JsVal) :=
  match x with
  | Some n => if truthy (VNum n) then [(k, VStr (show_Z n))] else []
  | None => []
  end.

(** [if (x !== undefined) obj.k = x.toString()] for an optional boolean. *)
Definition bool_field (k : string) (x : option bool) : list (string * JsVal) :=
  match x with
  | Some b => [(k, VStr (bool_toString b))]
  | None => []
  end.

(** The object that each handler passes to [sendMessage], as the list of its
    properties in the order of their creation. *)
Definition message (r : Request) : list (string * JsVal) :=
  match r with
  | Status => [("command", VStr "status")]
  | Discover => [("command", VStr "discover")]
  | ConnectCamera camera_index options =>
      [("command", VStr "connect"); ("camera_index", VStr (show_Z camera_index))]
      ++ match position options with
         | Some p =>
             if truthy (VStr p) && negb (String.eqb p "unknown")
             then [("position", VStr p)] else []
         | None => []
         end
      ++ string_field "alias" (alias options)
      ++ bool_field "set_master" (setMaster options)
  | SingleShot camera =>
      [("command", VStr "single_shot"); ("camera_id", VStr (show_Z camera))]
  | StartContinuous camera intervalSeconds =>
      [("command", VStr "start_continuous"); ("camera_id", VStr (show_Z camera));
       ("interval_seconds", VStr (show_Z intervalSeconds))]
  | StopContinuous camera =>
      [("command", VStr "stop_continuous"); ("camera_id", VStr (show_Z camera))]
  | DisconnectCamera camera =>
      [("command", VStr "disconnect"); ("camera_id", VStr (show_Z camera))]
  | SetTransferPath path =>
      [("command", VStr "set_transfer_path"); ("path", VStr path)]
  | GetCameraSettings camera =>
      [("command", VStr "get_camera_settings"); ("camera_id", VStr (show_Z camera))]
  | SetCameraSetting settingType settingValue options =>
      [("command", VStr "set_camera_setting"); ("setting_type", VStr settingType);
       ("setting_value", VStr settingValue)]
      ++ number_field "camera_id" (cameraId options)
      ++ bool_field "apply_to_all" (applyToAll options)
      ++ bool_field "sync_to_master" (syncToMaster options)
  | SyncMasterSettings settingsToSync =>
      [("command", VStr "sync_master_settings")]
      ++ string_field "settings_to_sync" settingsToSync
  | EnableAutoSync enabled intervalMs settingsToSync =>
      [("command", VStr "enable_auto_sync"); ("enabled", VStr (bool_toString enabled))]
      ++ number_field "sync_interval_ms" intervalMs
      ++ string_field "settings_to_auto_sync" settingsToSync
  | GetAvailableSettings camera settingType =>
      [("command", VStr "get_available_settings"); ("camera_id", VStr (show_Z camera));
       ("setting_type", VStr settingType)]
  end.

(** [sendMessage(message)]; [text] is [JSON.stringify(message)]. *)
Definition send (now : Z) (r : Request) (text : string) (s : State) : State :=
  sendMessage now (mkOut (Some (assoc "command" (message r))) (Some text)) s.

(** The target named in the success log of [handleSetCameraSetting]. *)
Definition setting_target (options : SettingOptions) : string :=
  if truthy (match applyToAll options with Some b => VBool b | None => VUndef end)
  then "all cameras"
  else match cameraId options with
       | Some n => if truthy (VNum n) then "camera " +:+ show_Z n else "master camera"
       | None => "master camera"
       end.

(** [handleDiscoverCameras], up to the request: it refuses while the hook's
    [isConnected] is false. *)
Definition handleDiscoverCameras (now : Z) (text : string) (s : State) : State :=
  if negb (isConnected s)
  then addLog now Error "Please connect to the server first" VUndef s
  else send now Discover text s.

(** How the promise of an [async] handler settles. *)
Inductive Completion := Returned | Threw.

(** [handleSetTransferPath] after the request has settled with [response]:
    the [addLog] call it makes and how its own promise settles.  Its [catch]
    does not throw again. *)
Definition handleSetTransferPath (response : Settled)
    : option (LogType * JsVal * Completion) :=
  let failed := VStr "Failed to set transfer path" in
  match response with
  | Pending => None
  | Rejected _ => Some (Error, failed, Returned)
  | Resolved v =>
      match prop v "success" with
      | None => Some (Error, failed, Returned)
      | Some ok =>
          if truthy ok then
            Some (Success,
                  VStr ("Transfer path set to: " +:+ to_str (default VUndef (prop v "path"))),
                  Returned)
          else
            Some (Error, js_or (default VUndef (prop v "error")) failed, Returned)
      end
  end.

End App.

(** ** CameraDiscovery: the connection options of a discovered camera *)

Module CameraDiscovery.

Record Options := mkOptions {
  position : string;
  alias : string;
  setMaster : bool
}.

(** The three calls of [updateConnectionOption(cameraIndex, key, value)]. *)
Inductive Edit :=
| EditAlias (value : string)
| EditPosition (value : string)
| EditSetMaster (value : bool).

Definition assign (e : Edit) (o : Options) : Options :=
  match e with
  | EditAlias v => mkOptions (position o) v (setMaster o)
  | EditPosition v => mkOptions v (alias o) (setMaster o)
  | EditSetMaster v => mkOptions (position o) (alias o) v
  end.

Definition updateConnectionOption (cameraIndex : Z) (e : Edit)
    (prev : gmap Z Options) : gmap Z Options :=
  <[cameraIndex := assign e (default (mkOptions "unknown" EmptyString false)
                                     (prev !! cameraIndex))]> prev.

(** [connectionOptions[camera.index] || {...}]: the options that the form
    shows and that [handleConnect] passes on; [count] is
    [discoveredCameras.length]. *)
Definition options_of (model : string) (count : nat) (cameraIndex : Z)
    (connectionOptions : gmap Z Options) : Options :=
  default (mkOptions "unknown" model (Nat.eqb count 1))
          (connectionOptions !! cameraIndex).

(** The request that [handleConnect] makes through [handleConnectCamera]. *)
Definition handleConnect (model : string) (count : nat) (cameraIndex : Z)
    (connectionOptions : gmap Z Options) : App.Request :=
  let o := options_of model count cameraIndex connectionOptions in
  App.ConnectCamera cameraIndex
    (App.mkConnectOptions (Some (position o)) (Some (alias o)) (Some (setMaster o))).

End CameraDiscovery.

(** ** CameraSettings: the settings chosen for synchronisation *)

Module CameraSettings.

(** The keys of [SETTING_TYPES]. *)
Definition SETTING_TYPES : list string :=
  [ "aperture"; "iso"; "shutter_speed"; "white_balance"; "focus_mode";
    "exposure_mode" ].

(** The initial [syncSettings]. *)
Definition syncSettings0 : list string := [ "aperture"; "iso"; "shutter_speed" ].

Definition includes (key : string) (l : list string) : bool :=
  existsb (String.eqb key) l.

(** The [onChange] of the checkbox of [key]. *)
Definition onChange (key : string) (checked : bool) (prev : list string)
    : list string :=
  if checked then (prev ++ [key])%list
  else List.filter (fun s => negb (String.eqb s key)) prev.

(** A click on the checkbox of [key], whose [checked] attribute is
    [syncSettings.includes(key)]. *)
Definition click (prev : list string) (key : string) : list string :=
  onChange key (negb (includes key prev)) prev.

Definition handleSyncMaster (syncSettings : list string) : App.Request :=
  App.SyncMasterSettings
    (Some (if Nat.eqb (length syncSettings) (length SETTING_TYPES)
           then "all" else join "," syncSettings)).

(** [enabled] is [autoSyncSettings?.enabled]. *)
Definition handleToggleAutoSync (enabled : option bool) (autoSyncInterval : Z)
    (syncSettings : list string) : App.Request :=
  App.EnableAutoSync
    (negb (default false enabled))
    (Some autoSyncInterval)
    (Some (join "," syncSettings)).

End CameraSettings.

(** ** TransferSettings *)

Module TransferSettings.

Record Form := mkForm {
  transferPath : string;
  currentPath : option string;
  isLoading : bool
}.

(** A string stands for the UTF-8 encoding of the JavaScript string.
    [trim] removes the white space and the line terminators of ECMAScript:
    U+0009 to U+000D and U+0020, which are single bytes; *)
Definition is_space (b : nat) : bool :=
  (Nat.leb 9 b && Nat.leb b 13) || Nat.eqb b 32.

(** U+00A0, encoded in two bytes; *)
Definition is_space2 (b c : nat) : bool := Nat.eqb b 194 && Nat.eqb c 160.

(** U+1680, U+2000 to U+200A, U+2028, U+2029, U+202F, U+205F, U+3000 and
    U+FEFF, encoded in three bytes. *)
Definition is_space3 (b c d : nat) : bool :=
  (Nat.eqb b 225 && Nat.eqb c 154 && Nat.eqb d 128)
  || (Nat.eqb b 226 && Nat.eqb c 128
      && ((Nat.leb 128 d && Nat.leb d 138)
          || Nat.eqb d 168 || Nat.eqb d 169 || Nat.eqb d 175))
  || (Nat.eqb b 226 && Nat.eqb c 129 && Nat.eqb d 159)
  || (Nat.eqb b 227 && Nat.eqb c 128 && Nat.eqb d 128)
  || (Nat.eqb b 239 && Nat.eqb c 187 && Nat.eqb d 191).

(** Every character of the text is white space. *)
Fixpoint all_space (bytes : list nat) : bool :=
  match bytes with
  | [] => true
  | b :: rest =>
      if is_space b then all_space rest
      else
        match rest with
        | [] => false
        | c :: rest1 =>
            if is_space2 b c then all_space rest1
            else
              match rest1 with
              | [] => false
              | d :: rest2 => if is_space3 b c d then all_space rest2 else false
              end
        end
  end.

(** [!transferPath.trim()] *)
Definition blank (path : string) : bool :=
  all_space (map Ascii.nat_of_ascii (list_ascii_of_string path)).

(** [handleSetPath]; [completion] is how [onSetTransferPath(transferPath)]
    has settled, [None] while it is pending. *)
Definition handleSetPath (completion : option App.Completion) (f : Form) : Form :=
  if blank (transferPath f) then f
  else
    match completion with
    | None => mkForm (transferPath f) (currentPath f) true
    | Some App.Returned => mkForm EmptyString (Some (transferPath f)) false
    | Some App.Threw => mkForm (transferPath f) (currentPath f) false
    end.

End TransferSettings.

(** Every value of the object is a string. *)
Definition string_valued (kv : string * JsVal) : Prop := exists v, snd kv = VStr v.

(** * Properties *)

(** ** The event log is bounded *)

Lemma push_log_length e l : (length (push_log e l) <= 100)%nat.
Proof. unfold push_log. rewrite length_take. lia. Qed.

Lemma addLog_bounded now ty m c s : bounded (addLog now ty m c s).
Proof. apply push_log_length. Qed.

Lemma settle_logs p o s : eventLogs (settle p o s) = eventLogs s.
Proof. unfold settle. by repeat case_match. Qed.

Lemma socket_close_logs sock code reason s :
  eventLogs (socket_close sock code reason s) = eventLogs s.
Proof. unfold socket_close. by repeat case_match. Qed.

Lemma stopPing_logs s : eventLogs (stopPing s) = eventLogs s.
Proof. unfold stopPing. by case_match. Qed.

Lemma startPing_logs now s : eventLogs (startPing now s) = eventLogs s.
Proof. unfold startPing. by case_match. Qed.

Lemma ping_tick_logs s : eventLogs (ping_tick s) = eventLogs s.
Proof. unfold ping_tick. by repeat case_match. Qed.

Lemma request_timeout_logs p k s : eventLogs (request_timeout p k s) = eventLogs s.
Proof. unfold request_timeout, reject. case_match; [by rewrite settle_logs | done]. Qed.

Lemma dispatch_logs data ty s :
  eventLogs (match dispatch data ty s with Done s' | Thrown s' => s' end) = eventLogs s.
Proof.
  unfold dispatch, resolve. repeat case_match; simplify_eq; try done.
  by rewrite settle_logs.
Qed.

Lemma when_bounded c f s :
  (forall s', bounded s' -> bounded (f s')) -> bounded s -> bounded (when c f s).
Proof. unfold when. destruct c; auto. Qed.

Lemma connect_bounded url_ok now s : bounded s -> bounded (connect url_ok now s).
Proof.
  intros H. unfold connect. repeat case_match; try done. apply addLog_bounded.
Qed.

Lemma onmessage_bounded now parsed s : bounded s -> bounded (onmessage now parsed s).
Proof.
  intros H. unfold onmessage.
  destruct parsed as [data|]; [|apply addLog_bounded].
  destruct (prop data "type") as [ty|]; [|apply addLog_bounded].
  cbv zeta. case_match; [done|].
  case_match; [|apply addLog_bounded].
  destruct (dispatch _ _ _) eqn:Hd; [|apply addLog_bounded].
  unfold bounded.
  match type of Hd with dispatch ?d ?t ?s7 = _ =>
    pose proof (dispatch_logs d t s7) as Hl; rewrite Hd in Hl; rewrite Hl end.
  apply when_bounded; [intros; apply addLog_bounded|].
  repeat case_match; simplify_eq; try apply addLog_bounded.
  repeat (apply when_bounded; [intros; apply addLog_bounded|]). done.
Qed.

Lemma onclose_bounded now code reason s : bounded (onclose now code reason s).
Proof. unfold onclose. repeat case_match; apply addLog_bounded. Qed.

Lemma sendMessage_logs now m s : eventLogs (sendMessage now m s) = eventLogs s.
Proof.
  unfold sendMessage, resolve, reject.
  repeat case_match; rewrite ?settle_logs; done.
Qed.

Lemma fire_bounded url_ok now id s : bounded s -> bounded (fire url_ok now id s).
Proof.
  intros H. unfold fire. repeat case_match; try done.
  - by apply connect_bounded.
  - unfold bounded. by rewrite request_timeout_logs.
  - unfold bounded. by rewrite ping_tick_logs.
Qed.

Lemma step_bounded url_ok now e s : bounded s -> bounded (step url_ok now e s).
Proof.
  intros H. destruct e; cbn [step].
  - by apply connect_bounded.
  - apply addLog_bounded.
  - unfold bounded. by rewrite sendMessage_logs.
  - done.
  - done.
  - apply addLog_bounded.
  - case_match; try done. case_match; try done.
    unfold onopen, bounded. rewrite startPing_logs. apply addLog_bounded.
  - repeat case_match; try done; by apply onmessage_bounded.
  - repeat case_match; try done; apply onclose_bounded.
  - repeat case_match; try done; apply addLog_bounded.
  - by apply fire_bounded.
Qed.

Lemma run_bounded url_ok trace s : bounded s -> bounded (run url_ok trace s).
Proof.
  revert s. induction trace as [|[now e] rest IH]; intros s H; [done|].
  cbn [run]. apply IH. by apply step_bounded.
Qed.

Lemma take_app_take {A} n (l k : list A) : take n (l ++ take n k) = take n (l ++ k).
Proof. rewrite !take_app, take_take. f_equal. f_equal. lia. Qed.

Lemma run_log_calls url_ok (cs : list LogCall) s :
  take 100 (eventLogs (run url_ok (map log_event cs) s))
  = take 100 (reverse (map entry_of cs) ++ eventLogs s).
Proof.
  revert s. induction cs as [|[[[now ty] m] cam] cs IH]; intros s; [done|].
  cbn [map log_event run step]. rewrite IH.
  unfold addLog. cbn [eventLogs set_eventLogs]. unfold push_log.
  rewrite take_app_take. cbn [entry_of]. rewrite reverse_cons, <- app_assoc. done.
Qed.

(** C9.  Starting from the empty log, any sequence of [addLog] calls leaves
    the newest 100 entries, newest first: the log is the first 100 elements
    of the reversed sequence of entries, so its length is [min n 100] (after
    150 calls, the 100 most recent).  Whatever the hook does, on any trace of
    events, the log never holds more than 100 entries. *)
Theorem eventLogs_newest_first_capped :
  (forall url_ok (cs : list LogCall),
      let s := run url_ok (map log_event cs) initial in
      eventLogs s = take 100 (reverse (map entry_of cs))
      /\ length (eventLogs s) = Nat.min (length cs) 100)
  /\ (forall url_ok trace, (length (eventLogs (run url_ok trace initial)) <= 100)%nat).
Proof.
  assert (Hb : forall url_ok trace, bounded (run url_ok trace initial)).
  { intros. apply run_bounded. unfold bounded. cbn. lia. }
  split; [|exact Hb].
  intros url_ok cs s.
  assert (Hs : eventLogs s = take 100 (reverse (map entry_of cs))).
  { rewrite <- (take_ge (eventLogs s) 100) by apply Hb.
    subst s. rewrite run_log_calls. cbn [eventLogs initial]. by rewrite app_nil_r. }
  split; [exact Hs|].
  rewrite Hs, length_take, length_reverse, length_map. lia.
Qed.

Example log_after_150_appends :
  map log_message (eventLogs (run true (map log_event (numbered 150)) initial))
  = map (fun i => show_Z (Z.of_nat i)) (reverse (seq 50 100)).
Proof. vm_compute. reflexivity. Qed.

(** C8.  A frame whose [type] or [command] is [pong] leaves the whole state
    as it was: no entry is added to the event log, no subscriber callback
    runs, no promise is settled and the handler table is untouched. *)
Theorem pong_frame_is_dropped :
  forall url_ok now sock data s,
    is_pong data = true ->
    let s' := step url_ok now (SockMessage sock (Some data)) s in
    s' = s /\ eventLogs s' = eventLogs s /\ calls s' = calls s
    /\ promises s' = promises s /\ messageHandlers s' = messageHandlers s.
Proof.
  intros url_ok now sock data s Hp s'.
  assert (Hs : s' = s); [|by rewrite Hs].
  subst s'. cbn [step]. unfold is_pong in Hp.
  assert (onmessage now (Some data) s = s) as ->.
  { unfold onmessage. destruct (prop data "type") as [ty|]; [|done].
    destruct (prop data "command") as [c|] eqn:Hc; [|done].
    cbv zeta. cbn [from_option id]. by rewrite Hp. }
  by repeat case_match.
Qed.

Lemma pong_frame_is_dropped_witness :
  is_pong (VObj [("type", VStr "pong")]) = true
  /\ socket_state pong_state 1 = Some OPEN
  /\ messageHandlers pong_state !! Tag "pong" = Some (Callback 7 false)
  /\ step true 3 (SockMessage 1 (Some (VObj [("type", VStr "pong")]))) pong_state
     = pong_state.
Proof.
  split; [reflexivity|]. split; [vm_compute; reflexivity|].
  split; [vm_compute; reflexivity|].
  apply (pong_frame_is_dropped true 3 1 (VObj [("type", VStr "pong")]) pong_state).
  reflexivity.
Defined.

(** ** Sending *)

Lemma promise_settle_eq p o s :
  promise s p = Some Pending -> promise (settle p o s) p = Some o.
Proof.
  unfold promise, settle. intros ->. cbn [promises set_promises].
  by rewrite lookup_insert_eq.
Qed.

Lemma sendMessage_no_reply now message text sock s :
  connected_to s sock ->
  out_json message = Some text ->
  no_reply_expected message ->
  let s' := sendMessage now message s in
  promise s' (fresh s) = Some (Resolved ack)
  /\ messageHandlers s' = messageHandlers s
  /\ timers s' = timers s
  /\ sockets s' = alter (fun so => mkSocket (readyState so) (sent so ++ [text]) (closed_with so))
                         sock (sockets s).
Proof.
  intros [Hws Hopen] Hjson Hno s'. subst s'.
  unfold sendMessage.
  assert (Hws0 : ws (new_promise s) = Some sock) by done.
  assert (Hopen0 : ws_open (new_promise s) = true).
  { unfold ws_open. rewrite Hws0.
    change (socket_state (new_promise s) sock) with (socket_state s sock).
    by rewrite Hopen. }
  rewrite Hws0, Hopen0, Hjson.
  assert (Hp : forall s1, promises s1 = promises (new_promise s) ->
                          promise (resolve (fresh s) ack s1) (fresh s) = Some (Resolved ack)).
  { intros s1 H1. apply promise_settle_eq. unfold promise. rewrite H1.
    unfold new_promise. cbn [promises set_fresh set_promises].
    by rewrite lookup_insert_eq. }
  assert (Hres : let s1 := resolve (fresh s) ack (socket_send sock text (new_promise s)) in
            promise s1 (fresh s) = Some (Resolved ack)
            /\ messageHandlers s1 = messageHandlers s /\ timers s1 = timers s
            /\ sockets s1 = alter (fun so => mkSocket (readyState so) (sent so ++ [text]) (closed_with so))
                         sock (sockets s)).
  { cbv zeta. split; [by apply Hp|]. unfold resolve, settle. by case_match; [case_match|]. }
  unfold no_reply_expected in Hno.
  destruct (out_command message) as [c|]; [|exact Hres].
  destruct Hno as [Hping | Hnone]; [by rewrite Hping | rewrite Hnone].
  by destruct (negb _).
Qed.

Lemma responseMap_values_nonempty :
  map_Forall (fun _ tag => truthy (VStr tag) = true) responseMap.
Proof. apply (bool_decide_unpack _). vm_compute. exact I. Qed.

(** [getResponseType] gives [null] exactly for the names that are neither a
    key of the table nor a member inherited from [Object.prototype]. *)
Lemma getResponseType_null command :
  getResponseType command = None
  <-> responseMap !! command = None /\ command ∉ object_prototype.
Proof.
  unfold getResponseType.
  destruct (responseMap !! command) as [tag|] eqn:Hm.
  - rewrite (responseMap_values_nonempty _ _ Hm). split; [done | by intros [? _]].
  - case_bool_decide; split; try done. by intros [_ ?].
Qed.

(** C5.  The code at a command that the table does not contain but
    [Object.prototype] does: [responseMap[constructor]] is the inherited
    constructor function, which is truthy, so [sendMessage] registers a
    one-time handler under that key instead of resolving at once; the
    promise stays pending until the 10-second timer rejects it with
    [Request timeout]. *)
Theorem inherited_command_awaits_reply :
  let message := command "constructor" in
  let s := sendMessage 3 message connected in
  connected_to connected 1
  /\ responseMap !! "constructor" = None
  /\ promise s 3 = Some Pending
  /\ messageHandlers s !! Inherited "constructor" = Some (OneShot 3 (Inherited "constructor"))
  /\ timers s !! 4%nat = Some (mkTimer 10003 (RequestTimeout 3 (Inherited "constructor")))
  /\ promise (step true 10003 (TimerFire 4) s) 3 = Some (Rejected (ErrorMsg "Request timeout")).
Proof. vm_compute. repeat split; reflexivity. Qed.

Lemma sendMessage_ping_resolves :
  let s := sendMessage 3 (command "ping") connected in
  promise s 3 = Some (Resolved ack) /\ messageHandlers s = messageHandlers connected.
Proof.
  destruct (sendMessage_no_reply 3 (command "ping")
              (default EmptyString (out_json (command "ping"))) 1%nat connected)
    as (H1 & H2 & _).
  - vm_compute. split; reflexivity.
  - reflexivity.
  - left. reflexivity.
  - split; [exact H1 | exact H2].
Qed.

(** ** Closing and reconnecting *)

Lemma stopPing_timers s :
  timers (stopPing s)
  = match pingInterval s with Some id => delete id (timers s) | None => timers s end.
Proof. unfold stopPing. by case_match. Qed.

Lemma stopPing_timers_sub s : timers (stopPing s) ⊆ timers s.
Proof. rewrite stopPing_timers. case_match; [apply delete_subseteq | done]. Qed.

Lemma stopPing_attempts s : reconnectAttempts (stopPing s) = reconnectAttempts s.
Proof. unfold stopPing. by case_match. Qed.

Lemma stopPing_fresh s : fresh (stopPing s) = fresh s.
Proof. unfold stopPing. by case_match. Qed.

Lemma socket_close_timers sock code reason s :
  timers (socket_close sock code reason s) = timers s.
Proof. unfold socket_close. by repeat case_match. Qed.

Lemma disconnect_timers now s :
  timers (disconnect now s)
  = match pingInterval s with
    | Some id => delete id | None => fun m => m
    end (match reconnectTimeout s with
         | Some id => delete id (timers s) | None => timers s
         end).
Proof.
  unfold disconnect. cbn [timers addLog set_eventLogs set_reconnectAttempts
    set_isConnecting set_isConnected].
  assert (forall s2, timers (match ws s2 with
                             | Some sock =>
                                 set_ws None (socket_close sock 1000 "User disconnect" s2)
                             | None => s2 end) = timers s2) as ->.
  { intros s2. case_match; [|done]. cbn [timers set_ws]. apply socket_close_timers. }
  rewrite stopPing_timers.
  destruct (reconnectTimeout s), (pingInterval s) eqn:Hp;
    cbn [pingInterval clearTimeout set_timers timers]; by rewrite ?Hp.
Qed.

(** A close with a code other than 1000, under the cap, arms the reconnect
    timer. *)
Lemma onclose_schedules now code reason s :
  code <> 1000 ->
  reconnectAttempts s < maxReconnectAttempts ->
  let s' := onclose now code reason s in
  reconnectTimeout s' = Some (fresh s)
  /\ reconnect_scheduled s' (fresh s) (now + 2 ^ reconnectAttempts s * 1000).
Proof.
  intros Hc Ha s'. subst s'. unfold onclose.
  rewrite !stopPing_attempts. cbn [reconnectAttempts set_isConnecting set_isConnected].
  apply Z.eqb_neq in Hc. apply Z.ltb_lt in Ha. rewrite Hc, Ha. cbn [negb andb].
  unfold reconnect_scheduled.
  cbn [reconnectTimeout set_reconnectTimeout timers setTimeout set_fresh set_timers
       fresh addLog set_eventLogs].
  rewrite stopPing_fresh. cbn [fresh set_isConnecting set_isConnected].
  split; [done|]. by rewrite lookup_insert_eq.
Qed.

(** Any other close arms nothing. *)
Lemma onclose_no_schedule now code reason s :
  code = 1000 \/ maxReconnectAttempts <= reconnectAttempts s ->
  let s' := onclose now code reason s in
  timers s' ⊆ timers s /\ reconnectTimeout s' = reconnectTimeout s.
Proof.
  intros H s'. subst s'. unfold onclose.
  rewrite !stopPing_attempts. cbn [reconnectAttempts set_isConnecting set_isConnected].
  assert (negb (Z.eqb code 1000) && Z.ltb (reconnectAttempts s) maxReconnectAttempts = false) as ->.
  { destruct H as [-> | H]; [done|]. apply andb_false_iff. right. by apply Z.ltb_ge. }
  assert (Hrt : forall s0, reconnectTimeout (stopPing s0) = reconnectTimeout s0).
  { intros s0. unfold stopPing. by case_match. }
  case_match; cbn [timers reconnectTimeout addLog set_eventLogs set_connectionError];
    rewrite Hrt; (split; [|done]);
    etrans; [apply stopPing_timers_sub | done | apply stopPing_timers_sub | done].
Qed.

Lemma onclose_at_cap now code reason s :
  maxReconnectAttempts <= reconnectAttempts s ->
  let s' := onclose now code reason s in
  connectionError s' = Some "Maximum reconnection attempts reached"
  /\ isConnected s' = false /\ isConnecting s' = false.
Proof.
  intros H s'. subst s'. unfold onclose.
  rewrite !stopPing_attempts. cbn [reconnectAttempts set_isConnecting set_isConnected].
  assert (negb (Z.eqb code 1000) && Z.ltb (reconnectAttempts s) maxReconnectAttempts = false) as ->.
  { apply andb_false_iff. right. by apply Z.ltb_ge. }
  apply Z.leb_le in H. rewrite H.
  cbn [connectionError isConnected isConnecting addLog set_eventLogs set_connectionError].
  unfold stopPing. by case_match.
Qed.

Lemma stopPing_ws s : ws (stopPing s) = ws s.
Proof. unfold stopPing. by case_match. Qed.

Lemma stopPing_sockets s : sockets (stopPing s) = sockets s.
Proof. unfold stopPing. by case_match. Qed.

Lemma disconnect_closes now s sock :
  connected_to s sock ->
  socket_state (disconnect now s) sock = Some CLOSING
  /\ close_request (disconnect now s) sock = Some (1000, "User disconnect").
Proof.
  intros [Hws Hopen]. unfold disconnect.
  set (s1 := match reconnectTimeout s with Some id => clearTimeout id s | None => s end).
  assert (H1 : ws s1 = ws s /\ sockets s1 = sockets s).
  { subst s1. by case_match. }
  destruct H1 as [Hw1 Hs1].
  rewrite stopPing_ws, Hw1, Hws.
  unfold close_request, socket_state in *.
  cbn [sockets addLog set_eventLogs set_reconnectAttempts set_isConnecting
       set_isConnected set_ws].
  unfold socket_close, socket_state. rewrite stopPing_sockets, Hs1.
  destruct (sockets s !! sock) as [[r snt cw]|] eqn:Hso; [|done].
  cbn in Hopen. simplify_eq. cbn [fmap option_fmap option_map readyState].
  cbn [sockets set_sockets].
  by rewrite lookup_alter_eq, Hso.
Qed.

(** C6.  [disconnect] arms no timer: it cancels the reconnect timer and the
    ping interval, resets the attempt counter, clears [ws.current] and asks
    the open socket to close (with code 1000).  A close event with code 1000
    arms no timer either.  A close event with any other code, while the
    counter is below [maxReconnectAttempts], arms the reconnect timer, due
    [2 ^ reconnectAttempts * 1000] ms later. *)
Theorem graceful_close_does_not_reconnect :
  forall now s,
    (let s' := disconnect now s in
     timers s' ⊆ timers s
     /\ (forall id, reconnectTimeout s = Some id -> timers s' !! id = None)
     /\ (forall id, pingInterval s = Some id -> timers s' !! id = None)
     /\ reconnectAttempts s' = 0
     /\ ws s' = None
     /\ (forall sock,
           connected_to s sock ->
           socket_state s' sock = Some CLOSING
           /\ close_request s' sock = Some (1000, "User disconnect")))
    /\ (forall reason,
          let s' := onclose now 1000 reason s in
          timers s' ⊆ timers s /\ reconnectTimeout s' = reconnectTimeout s)
    /\ (forall code reason,
          code <> 1000 ->
          reconnectAttempts s < maxReconnectAttempts ->
          let s' := onclose now code reason s in
          reconnectTimeout s' = Some (fresh s)
          /\ reconnect_scheduled s' (fresh s) (now + 2 ^ reconnectAttempts s * 1000)).
Proof.
  intros now s. split; [|split].
  - cbv zeta. rewrite disconnect_timers.
    split; [|split; [|split; [|split; [|split]]]].
    + destruct (pingInterval s), (reconnectTimeout s); try done;
        repeat (etrans; [apply delete_subseteq|]); done.
    + intros id ->. destruct (pingInterval s) as [i|]; [|by rewrite lookup_delete_eq].
      rewrite lookup_delete. case_decide; [done | by rewrite lookup_delete_eq].
    + intros id ->. by rewrite lookup_delete_eq.
    + done.
    + unfold disconnect. cbn. by repeat case_match.
    + intros sock Hc. by apply disconnect_closes.
  - intros reason. apply onclose_no_schedule. by left.
  - intros code reason. apply onclose_schedules.
Qed.

Lemma graceful_close_does_not_reconnect_witness :
  let dropped := onclose 100 1006 EmptyString connected in
  (1006 <> 1000
   /\ reconnectAttempts connected < maxReconnectAttempts
   /\ reconnect_scheduled dropped 3 1100)
  /\ (connected_to connected 1
      /\ socket_state (disconnect 50 connected) 1 = Some CLOSING
      /\ close_request (disconnect 50 connected) 1 = Some (1000, "User disconnect"))
  /\ (reconnectTimeout dropped = Some 3%nat
      /\ timers (disconnect 200 dropped) !! 3%nat = None)
  /\ timers (onclose 60 1000 "User disconnect" (disconnect 50 connected))
       ⊆ timers (disconnect 50 connected).
Proof.
  cbv zeta.
  assert (H1 : 1006 <> 1000) by lia.
  assert (H2 : reconnectAttempts connected < maxReconnectAttempts)
    by (vm_compute; reflexivity).
  assert (H3 : connected_to connected 1) by (vm_compute; split; reflexivity).
  assert (H4 : reconnectTimeout (onclose 100 1006 EmptyString connected) = Some 3%nat)
    by (vm_compute; reflexivity).
  destruct (graceful_close_does_not_reconnect 100 connected) as (_ & _ & Hdrop).
  destruct (graceful_close_does_not_reconnect 50 connected)
    as ((_ & _ & _ & _ & _ & Hclosing) & _ & _).
  destruct (graceful_close_does_not_reconnect 200 (onclose 100 1006 EmptyString connected))
    as ((_ & Hcancel & _) & _ & _).
  destruct (graceful_close_does_not_reconnect 60 (disconnect 50 connected))
    as (_ & Hnormal & _).
  split; [|split; [|split]].
  - split; [exact H1|]. split; [exact H2|].
    exact (proj2 (Hdrop 1006 EmptyString H1 H2)).
  - split; [exact H3|]. exact (Hclosing 1%nat H3).
  - split; [exact H4|]. exact (Hcancel 3%nat H4).
  - exact (proj1 (Hnormal "User disconnect")).
Defined.

(** ** Once every socket is closed and no reconnect is pending *)

Lemma all_closed_state s sock :
  all_closed s -> socket_state s sock = None \/ socket_state s sock = Some CLOSED.
Proof.
  intros H. unfold socket_state.
  destruct (sockets s !! sock) as [so|] eqn:Hso; [right | by left].
  cbn. by rewrite (H _ _ Hso).
Qed.

Lemma all_closed_not_open s : all_closed s -> ws_open s = false.
Proof.
  intros H. unfold ws_open. destruct (ws s) as [sock|]; [|done].
  by destruct (all_closed_state s sock H) as [-> | ->].
Qed.

Lemma settle_timers p o s : timers (settle p o s) = timers s.
Proof. unfold settle. by repeat case_match. Qed.

Lemma settle_sockets p o s : sockets (settle p o s) = sockets s.
Proof. unfold settle. by repeat case_match. Qed.

Lemma no_reconnect_sub s s' :
  timers s' ⊆ timers s -> no_reconnect_pending s -> no_reconnect_pending s'.
Proof.
  intros Hsub H id t Ht. apply (H id).
  by eapply lookup_weaken.
Qed.

Lemma idle_sub s s' :
  timers s' ⊆ timers s -> sockets s' = sockets s -> idle s -> idle s'.
Proof.
  intros Ht Hs [H1 H2]. split; [by eapply no_reconnect_sub|].
  unfold all_closed. by rewrite Hs.
Qed.

Lemma sendMessage_closed now message s :
  ws_open s = false ->
  timers (sendMessage now message s) = timers s
  /\ sockets (sendMessage now message s) = sockets s.
Proof.
  intros H. unfold sendMessage.
  assert (H0 : ws_open (new_promise s) = false) by done.
  unfold reject. destruct (ws (new_promise s)); rewrite ?H0;
    by rewrite settle_timers, settle_sockets.
Qed.

Lemma disconnect_sockets_closed now s :
  all_closed s -> sockets (disconnect now s) = sockets s.
Proof.
  intros H. unfold disconnect.
  set (s1 := match reconnectTimeout s with Some id => clearTimeout id s | None => s end).
  assert (Hs1 : sockets s1 = sockets s) by (subst s1; by case_match).
  cbn [sockets addLog set_eventLogs set_reconnectAttempts set_isConnecting set_isConnected].
  rewrite <- Hs1, <- (stopPing_sockets s1).
  destruct (ws (stopPing s1)) as [sock|]; [|done].
  cbn [sockets set_ws]. unfold socket_close.
  assert (Hst : socket_state (stopPing s1) sock = socket_state s sock).
  { unfold socket_state. by rewrite stopPing_sockets, Hs1. }
  rewrite Hst. by destruct (all_closed_state s sock H) as [-> | ->].
Qed.

Lemma ping_tick_closed s : ws_open s = false -> ping_tick s = s.
Proof. intros H. unfold ping_tick. rewrite H. by case_match. Qed.

Lemma fire_idle url_ok now id s :
  idle s ->
  idle (fire url_ok now id s) /\ sockets (fire url_ok now id s) = sockets s.
Proof.
  intros [Hn Hc]. unfold fire.
  destruct (timers s !! id) as [t|] eqn:Ht; [|done].
  destruct (Z.leb (due t) now); [|done].
  destruct (action t) as [|p k|] eqn:Ha.
  - by destruct (Hn id t Ht).
  - assert (Hs : sockets (request_timeout p k (clearTimeout id s)) = sockets s).
    { unfold request_timeout, reject. case_match; [|done]. by rewrite settle_sockets. }
    split; [|done]. apply (idle_sub s); [|done|done].
    unfold request_timeout, reject.
    case_match; rewrite ?settle_timers; apply delete_subseteq.
  - rewrite ping_tick_closed by (by apply all_closed_not_open).
    split; [|done]. split; [|done].
    intros id' t'. cbn [timers set_timers]. rewrite lookup_insert.
    case_decide; [intros; by simplify_eq | apply Hn].
Qed.

Lemma step_idle url_ok now e s :
  is_connect e = false ->
  idle s ->
  idle (step url_ok now e s) /\ sockets (step url_ok now e s) = sockets s.
Proof.
  intros He Hi. pose proof Hi as [Hn Hc].
  destruct e; cbn [step]; try done.
  - rewrite (disconnect_sockets_closed now s Hc). split; [|done].
    apply (idle_sub s); [|by apply disconnect_sockets_closed|done].
    rewrite disconnect_timers.
    destruct (pingInterval s), (reconnectTimeout s); try done;
      repeat (etrans; [apply delete_subseteq|]); done.
  - destruct (sendMessage_closed now message s (all_closed_not_open s Hc)) as [Ht Hs].
    split; [|done]. apply (idle_sub s); [by rewrite Ht|done|done].
  - by destruct (all_closed_state s sock Hc) as [-> | ->].
  - by destruct (all_closed_state s sock Hc) as [-> | ->].
  - by destruct (all_closed_state s sock Hc) as [-> | ->].
  - by destruct (all_closed_state s sock Hc) as [-> | ->].
  - by apply fire_idle.
Qed.








(** ** A stranded promise stays pending *)

Section Stranded.

Variable p : nat.

Lemma stranded_frame s s' :
  promises s' = promises s -> fresh s' = fresh s ->
  messageHandlers s' = messageHandlers s -> timers s' = timers s ->
  stranded p s -> stranded p s'.
Proof. unfold stranded, promise. by intros -> -> -> ->. Qed.

Lemma stranded_settle q o s : q <> p -> stranded p s -> stranded p (settle q o s).
Proof.
  intros Hq (Hp & Hf & Hh & Ht). unfold settle.
  destruct (promises s !! q) as [[| |]|]; try done.
  split; [|done]. unfold promise. cbn [promises set_promises].
  by rewrite lookup_insert_ne.
Qed.

Lemma stranded_new_promise s : stranded p s -> stranded p (new_promise s).
Proof.
  intros (Hp & Hf & Hh & Ht). unfold new_promise.
  split; [|split; [cbn; lia | done]].
  unfold promise. cbn [promises set_promises set_fresh].
  rewrite lookup_insert_ne; [done | lia].
Qed.

Lemma stranded_clearTimeout id s : stranded p s -> stranded p (clearTimeout id s).
Proof.
  intros (Hp & Hf & Hh & Ht). repeat split; try done.
  cbn [timers clearTimeout set_timers]. by apply map_Forall_delete.
Qed.

Lemma stranded_set_timer id t s :
  timer_settles p t = false -> stranded p s ->
  stranded p (set_timers (<[id := t]> (timers s)) s).
Proof.
  intros Hs (Hp & Hf & Hh & Ht). repeat split; try done.
  cbn [timers set_timers]. by apply map_Forall_insert_2.
Qed.

Lemma stranded_setTimeout now delay a s :
  timer_settles p (mkTimer (now + delay) a) = false ->
  stranded p s -> stranded p (setTimeout now delay a s).
Proof.
  intros Hs H. unfold setTimeout.
  destruct (stranded_set_timer (fresh s) _ s Hs H) as (Hp & Hf & Hh & Ht).
  repeat split; try done. cbn in *. lia.
Qed.

Lemma stranded_insert_handler k h s :
  handler_settles p h = false -> stranded p s ->
  stranded p (set_messageHandlers (<[k := h]> (messageHandlers s)) s).
Proof.
  intros Hs (Hp & Hf & Hh & Ht). repeat split; try done.
  cbn [messageHandlers set_messageHandlers]. by apply map_Forall_insert_2.
Qed.

Lemma stranded_delete_handler k s :
  stranded p s -> stranded p (set_messageHandlers (delete k (messageHandlers s)) s).
Proof.
  intros (Hp & Hf & Hh & Ht). repeat split; try done.
  cbn [messageHandlers set_messageHandlers]. by apply map_Forall_delete.
Qed.

Lemma stranded_fresh_ne s : stranded p s -> fresh s <> p.
Proof. intros (_ & Hf & _). lia. Qed.

Lemma stranded_handler_ne s k q r :
  stranded p s -> messageHandlers s !! k = Some (OneShot q r) -> q <> p.
Proof.
  intros (_ & _ & Hh & _) Hk. specialize (Hh k _ Hk). cbn in Hh.
  by apply Nat.eqb_neq.
Qed.

Lemma stranded_timer_ne s id t q r :
  stranded p s -> timers s !! id = Some t -> action t = RequestTimeout q r -> q <> p.
Proof.
  intros (_ & _ & _ & Ht) Hid Ha. specialize (Ht id _ Hid).
  unfold timer_settles in Ht. rewrite Ha in Ht. by apply Nat.eqb_neq.
Qed.

(** Peel one state transformer off the goal. *)
Ltac peel :=
  lazymatch goal with
  | |- stranded _ (set_isConnected _ ?s) => apply (stranded_frame s); [done..|]
  | |- stranded _ (set_isConnecting _ ?s) => apply (stranded_frame s); [done..|]
  | |- stranded _ (set_connectionError _ ?s) => apply (stranded_frame s); [done..|]
  | |- stranded _ (set_eventLogs _ ?s) => apply (stranded_frame s); [done..|]
  | |- stranded _ (set_ws _ ?s) => apply (stranded_frame s); [done..|]
  | |- stranded _ (set_reconnectAttempts _ ?s) => apply (stranded_frame s); [done..|]
  | |- stranded _ (set_reconnectTimeout _ ?s) => apply (stranded_frame s); [done..|]
  | |- stranded _ (set_pingInterval _ ?s) => apply (stranded_frame s); [done..|]
  | |- stranded _ (set_sockets _ ?s) => apply (stranded_frame s); [done..|]
  | |- stranded _ (set_calls _ ?s) => apply (stranded_frame s); [done..|]
  | |- stranded _ (addLog _ _ _ _ ?s) => apply (stranded_frame s); [done..|]
  | |- stranded _ (socket_send _ _ ?s) => apply (stranded_frame s); [done..|]
  | |- stranded _ (set_readyState _ _ ?s) => apply (stranded_frame s); [done..|]
  | |- stranded _ (clearTimeout _ _) => apply stranded_clearTimeout
  | |- stranded _ (new_promise _) => apply stranded_new_promise
  | |- stranded _ (set_messageHandlers (delete _ _) _) => apply stranded_delete_handler
  | |- stranded _ (setTimeout _ _ Reconnect _) => apply stranded_setTimeout; [done|]
  | |- stranded _ (setTimeout _ _ Ping _) => apply stranded_setTimeout; [done|]
  | |- stranded _ (when _ _ _) => unfold when at 1
  | |- stranded _ (match ?x with _ => _ end) => destruct x eqn:?
  end.

Ltac peels := repeat (cbv zeta; first [assumption | peel]).

Lemma stranded_socket_close sock code reason s :
  stranded p s -> stranded p (socket_close sock code reason s).
Proof. intros H. unfold socket_close. peels. Qed.

Lemma stranded_stopPing s : stranded p s -> stranded p (stopPing s).
Proof. intros H. unfold stopPing. peels. Qed.

Lemma stranded_startPing now s : stranded p s -> stranded p (startPing now s).
Proof. intros H. unfold startPing. peels. Qed.

Lemma stranded_ping_tick s : stranded p s -> stranded p (ping_tick s).
Proof. intros H. unfold ping_tick. peels. Qed.

Lemma stranded_connect url_ok now s : stranded p s -> stranded p (connect url_ok now s).
Proof.
  intros H. unfold connect. peels.
  destruct H as (Hp & Hf & Hh & Ht). repeat split; try done. cbn. lia.
Qed.

Lemma stranded_onopen now s : stranded p s -> stranded p (onopen now s).
Proof. intros H. unfold onopen. apply stranded_startPing. peels. Qed.

Lemma stranded_dispatch data ty s :
  stranded p s ->
  stranded p (match dispatch data ty s with Done s' | Thrown s' => s' end).
Proof.
  intros H. unfold dispatch.
  destruct ty; try done.
  destruct (messageHandlers s !! Tag s0) as [[q r|h throws]|] eqn:Hk; [| |done].
  - apply stranded_settle; [by eapply stranded_handler_ne|]. peels.
  - destruct throws; peels.
Qed.

Lemma stranded_onmessage now parsed s :
  stranded p s -> stranded p (onmessage now parsed s).
Proof.
  intros H. unfold onmessage.
  destruct parsed as [data|]; [|peels].
  destruct (prop data "type") as [ty|]; [|peels].
  cbv zeta. case_match; [done|].
  match goal with
  | |- stranded _ (match ?x with Some s6 => _ | None => ?f end) =>
      assert (Hs5 : match x with Some s6 => stranded p s6 | None => stranded p f end)
  end.
  { destruct (is_str ty "settings_synchronized"); [destruct (object_entries _)|]; peels. }
  case_match; [|done].
  match goal with
  | |- context [dispatch ?d ?t ?s7] =>
      assert (H7 : stranded p s7) by peels;
      pose proof (stranded_dispatch d t s7 H7) as Hd;
      destruct (dispatch d t s7)
  end; peels.
Qed.

Lemma stranded_onclose now code reason s :
  stranded p s -> stranded p (onclose now code reason s).
Proof.
  intros H. unfold onclose.
  assert (H1 : stranded p (stopPing (set_isConnecting false (set_isConnected false s)))).
  { apply stranded_stopPing. peels. }
  peels.
Qed.

Lemma stranded_disconnect now s : stranded p s -> stranded p (disconnect now s).
Proof.
  intros H. unfold disconnect. peels.
  all: try (apply stranded_socket_close); apply stranded_stopPing; peels.
Qed.

Lemma stranded_sendMessage now message s :
  stranded p s -> stranded p (sendMessage now message s).
Proof.
  intros H. pose proof (stranded_fresh_ne s H) as Hne.
  assert (Hb : Nat.eqb (fresh s) p = false) by by apply Nat.eqb_neq.
  unfold sendMessage, resolve, reject. cbv zeta.
  repeat lazymatch goal with
  | |- stranded _ (settle _ _ _) => apply stranded_settle; [exact Hne|]
  | |- stranded _ (setTimeout _ _ (RequestTimeout _ _) _) =>
      apply stranded_setTimeout; [exact Hb|]
  | |- stranded _ (set_messageHandlers (<[_ := OneShot _ _]> _) _) =>
      apply stranded_insert_handler; [exact Hb|]
  | |- _ => first [assumption | peel]
  end.
Qed.

Lemma stranded_request_timeout q r s :
  q <> p -> stranded p s -> stranded p (request_timeout q r s).
Proof.
  intros Hq H. unfold request_timeout, reject. case_match; [|done].
  apply stranded_settle; [done|]. peels.
Qed.

Lemma stranded_fire url_ok now id s : stranded p s -> stranded p (fire url_ok now id s).
Proof.
  intros H. unfold fire.
  destruct (timers s !! id) as [t|] eqn:Hid; [|done].
  destruct (Z.leb (due t) now); [|done].
  destruct (action t) as [|q r|] eqn:Ha.
  - cbv zeta. apply stranded_connect. peels.
  - apply stranded_request_timeout; [by eapply stranded_timer_ne|]. peels.
  - apply stranded_ping_tick. by apply stranded_set_timer.
Qed.

Lemma stranded_step url_ok now e s : stranded p s -> stranded p (step url_ok now e s).
Proof.
  intros H. destruct e; cbn [step].
  - by apply stranded_connect.
  - by apply stranded_disconnect.
  - by apply stranded_sendMessage.
  - by apply stranded_insert_handler.
  - by apply stranded_delete_handler.
  - peels.
  - repeat case_match; try done. apply stranded_onopen. peels.
  - repeat case_match; try done; by apply stranded_onmessage.
  - repeat case_match; try done; apply stranded_onclose; peels.
  - repeat case_match; try done; unfold onerror; peels.
  - by apply stranded_fire.
Qed.

Lemma stranded_run url_ok trace s :
  stranded p s -> stranded p (run url_ok trace s).
Proof.
  revert s. induction trace as [|[now e] rest IH]; intros s H; [done|].
  cbn [run]. apply IH. by apply stranded_step.
Qed.

End Stranded.

(** ** Outstanding requests *)

Lemma stopPing_promises s : promises (stopPing s) = promises s.
Proof. unfold stopPing. by case_match. Qed.

Lemma stopPing_handlers s : messageHandlers (stopPing s) = messageHandlers s.
Proof. unfold stopPing. by case_match. Qed.

Lemma onclose_promises now code reason s :
  promises (onclose now code reason s) = promises s
  /\ messageHandlers (onclose now code reason s) = messageHandlers s.
Proof.
  unfold onclose. repeat case_match;
    cbn [promises messageHandlers addLog set_eventLogs set_connectionError
         set_reconnectTimeout setTimeout set_fresh set_timers];
    by rewrite stopPing_promises, stopPing_handlers.
Qed.

(** The close handler keeps every timer but the ping interval. *)
Lemma onclose_keeps_timer now code reason s id t :
  timers s !! id = Some t ->
  (id < fresh s)%nat ->
  pingInterval s <> Some id ->
  timers (onclose now code reason s) !! id = Some t.
Proof.
  intros Ht Hf Hp. unfold onclose.
  assert (Hk : timers (stopPing (set_isConnecting false (set_isConnected false s))) !! id
               = Some t).
  { rewrite stopPing_timers. cbn [pingInterval timers set_isConnecting set_isConnected].
    destruct (pingInterval s) as [i|]; [|done].
    rewrite lookup_delete_ne; [done | congruence]. }
  repeat case_match;
    cbn [timers addLog set_eventLogs set_connectionError set_reconnectTimeout
         setTimeout set_fresh set_timers fresh]; try done.
  rewrite lookup_insert_ne; [done|]. rewrite stopPing_fresh. cbn. lia.
Qed.



(** C1, as amended.  A close event rejects no request: it changes neither
    the promises nor the handler table.  A request that is outstanding when
    the socket closes is still outstanding afterwards, and its timeout timer
    is still armed. *)
Theorem close_leaves_requests_to_their_timeouts :
  forall url_ok now sock code reason s,
    let s' := step url_ok now (SockClose sock code reason) s in
    promises s' = promises s
    /\ messageHandlers s' = messageHandlers s
    /\ (forall p r id at_,
          outstanding s p r ->
          timers s !! id = Some (mkTimer at_ (RequestTimeout p r)) ->
          (id < fresh s)%nat ->
          pingInterval s <> Some id ->
          outstanding s' p r
          /\ timers s' !! id = Some (mkTimer at_ (RequestTimeout p r))).
Proof.
  intros url_ok now sock code reason s s'.
  assert (Hsame : promises s' = promises s /\ messageHandlers s' = messageHandlers s).
  { subst s'. cbn [step]. repeat case_match; try done;
      apply (onclose_promises now code reason (set_readyState sock CLOSED s)). }
  destruct Hsame as [Hp Hh]. split; [done|]. split; [done|].
  intros p r id at_ [Hpend Hreg] Ht Hf Hping.
  assert (Ht' : timers s' !! id = Some (mkTimer at_ (RequestTimeout p r))).
  { subst s'. cbn [step]. repeat case_match; try done;
      by apply (onclose_keeps_timer now code reason (set_readyState sock CLOSED s)). }
  assert (Hout : outstanding s' p r).
  { unfold outstanding, promise. by rewrite Hp, Hh. }
  split; [done|]. done.
Qed.

Lemma close_leaves_requests_to_their_timeouts_witness :
  outstanding one_request 3 (Tag "status")
  /\ timers one_request !! 4%nat = Some (mkTimer 10003 (RequestTimeout 3 (Tag "status")))
  /\ (4 < fresh one_request)%nat
  /\ pingInterval one_request <> Some 4%nat
  /\ outstanding (step true 100 (SockClose 1 1006 EmptyString) one_request)
       3 (Tag "status")
  /\ timers (step true 100 (SockClose 1 1006 EmptyString) one_request) !! 4%nat
     = Some (mkTimer 10003 (RequestTimeout 3 (Tag "status"))).
Proof.
  assert (H1 : outstanding one_request 3 (Tag "status")) by (vm_compute; split; reflexivity).
  assert (H2 : timers one_request !! 4%nat
               = Some (mkTimer 10003 (RequestTimeout 3 (Tag "status"))))
    by (vm_compute; reflexivity).
  assert (H3 : (4 < fresh one_request)%nat) by (vm_compute; lia).
  assert (H4 : pingInterval one_request <> Some 4%nat) by (vm_compute; discriminate).
  split; [exact H1|]. split; [exact H2|]. split; [exact H3|]. split; [exact H4|].
  destruct (close_leaves_requests_to_their_timeouts true 100 1%nat 1006 EmptyString
              one_request) as (_ & _ & H).
  exact (H 3%nat (Tag "status") 4%nat 10003 H1 H2 H3 H4).
Defined.

(** C1, as stated, fails: with one [status] request outstanding on the open
    socket, an abnormal close (code 1006) leaves the request pending and its
    handler registered; the promise is not rejected. *)
Lemma close_does_not_reject_requests :
  let s' := step true 100 (SockClose 1 1006 EmptyString) one_request in
  connected_to one_request 1
  /\ outstanding one_request 3 (Tag "status")
  /\ socket_state s' 1 = Some CLOSED
  /\ outstanding s' 3 (Tag "status")
  /\ (forall e, promise s' 3 <> Some (Rejected e)).
Proof.
  vm_compute. repeat split; try reflexivity. intros e; discriminate.
Qed.

(** C2.  The code at the failing input: a subscriber for [status] is
    registered, then a [status] request is sent.  The request's one-time
    handler takes the subscriber's place in [messageHandlers]; the reply
    resolves the request, the subscriber is not called, and no handler for
    [status] is left, so the next [status] frame reaches nobody. *)
Theorem reply_bypasses_subscriber :
  let before := run true [(2, Subscribe "status" 7 false)] connected in
  let sent := run true [(2, Subscribe "status" 7 false);
                        (3, SendMessage (command "status"))] connected in
  let s := run true subscribed_request connected in
  messageHandlers before !! Tag "status" = Some (Callback 7 false)
  /\ getResponseType "status" = Some (Tag "status")
  /\ messageHandlers sent !! Tag "status" = Some (OneShot 3 (Tag "status"))
  /\ promise s 3 = Some (Resolved (frame "status"))
  /\ calls s = []
  /\ messageHandlers s !! Tag "status" = None
  /\ calls (step true 5 (SockMessage 1 (Some (frame "status"))) s) = [].
Proof. vm_compute. repeat split; reflexivity. Qed.

(** C3.  The code at the failing input: two [get_camera_settings] requests
    are outstanding at once.  The reply resolves the second; the first is
    left pending with neither a handler nor a timer that could settle it, and
    stays pending on every continuation. *)
Theorem second_request_strands_first :
  let s := run true two_requests_one_reply connected in
  getResponseType "get_camera_settings" = Some (Tag "camera_settings_result")
  /\ promise s 5 = Some (Resolved (frame "camera_settings_result"))
  /\ promise s 3 = Some Pending
  /\ stranded 3 s
  /\ (forall url_ok later, promise (run url_ok later s) 3 = Some Pending).
Proof.
  cbv zeta.
  assert (Hs : stranded 3 (run true two_requests_one_reply connected))
    by (apply (bool_decide_unpack _); vm_compute; exact I).
  split; [vm_compute; reflexivity|]. split; [vm_compute; reflexivity|].
  split; [apply Hs|]. split; [exact Hs|].
  intros url_ok later. by apply stranded_run.
Qed.

(** C4.  The code at the failing input: two [status] requests five seconds
    apart and no reply.  The first request's timer rejects it and deletes
    the second request's handler; the second request's timer, due ten
    seconds after its send, finds no handler and does nothing, so the second
    promise stays pending on every continuation. *)
Theorem timeout_of_first_strands_second :
  let s := run true two_requests_no_reply connected in
  timers (run true (take 2 two_requests_no_reply) connected) !! 6%nat
    = Some (mkTimer 15003 (RequestTimeout 5 (Tag "status")))
  /\ promise s 3 = Some (Rejected (ErrorMsg "Request timeout"))
  /\ promise s 5 = Some Pending
  /\ stranded 5 s
  /\ (forall url_ok later, promise (run url_ok later s) 5 = Some Pending).
Proof.
  cbv zeta.
  assert (Hs : stranded 5 (run true two_requests_no_reply connected))
    by (apply (bool_decide_unpack _); vm_compute; exact I).
  split; [vm_compute; reflexivity|]. split; [vm_compute; reflexivity|].
  split; [apply Hs|]. split; [exact Hs|].
  intros url_ok later. by apply stranded_run.
Qed.

(** A single request and no reply: the timer rejects it, and a late reply
    changes nothing. *)
Example timeout_in_isolation :
  let s := run true [(3, SendMessage (command "status")); (10003, TimerFire 4);
                     (10004, SockMessage 1 (Some (frame "status")))] connected in
  promise s 3 = Some (Rejected (ErrorMsg "Request timeout"))
  /\ messageHandlers s !! Tag "status" = None.
Proof. vm_compute. split; reflexivity. Qed.

(** ** Sending: refusals and the reply *)

Lemma promise_new s : promise (new_promise s) (fresh s) = Some Pending.
Proof.
  unfold promise, new_promise. cbn [promises set_fresh set_promises].
  by rewrite lookup_insert_eq.
Qed.

Lemma settle_frame p o s :
  sockets (settle p o s) = sockets s
  /\ messageHandlers (settle p o s) = messageHandlers s
  /\ timers (settle p o s) = timers s
  /\ eventLogs (settle p o s) = eventLogs s
  /\ calls (settle p o s) = calls s
  /\ fresh (settle p o s) = fresh s.
Proof. unfold settle. by repeat case_match. Qed.

Lemma sendMessage_refused now message s :
  ws_open s = false ->
  let s' := sendMessage now message s in
  promise s' (fresh s) = Some (Rejected (ErrorMsg "WebSocket is not connected"))
  /\ sockets s' = sockets s
  /\ messageHandlers s' = messageHandlers s
  /\ timers s' = timers s.
Proof.
  intros Hclosed s'. subst s'. unfold sendMessage.
  assert (H0 : ws_open (new_promise s) = false) by done.
  assert (Hr : forall m,
    let s1 := reject (fresh s) (ErrorMsg m) (new_promise s) in
    promise s1 (fresh s) = Some (Rejected (ErrorMsg m))
    /\ sockets s1 = sockets s /\ messageHandlers s1 = messageHandlers s
    /\ timers s1 = timers s).
  { intros m. cbv zeta. unfold reject. split.
    - apply promise_settle_eq, promise_new.
    - destruct (settle_frame (fresh s) (Rejected (ErrorMsg m)) (new_promise s))
        as (-> & -> & -> & _). done. }
  destruct (ws (new_promise s)); rewrite ?H0; apply Hr.
Qed.


(** X1.  [sendMessage] while [ws.current] is missing or not open rejects the
    promise at once with [WebSocket is not connected]; nothing is handed to
    any socket, no handler is registered and no timer is armed. *)
Theorem sendMessage_not_connected :
  forall now message s,
    ws_open s = false ->
    let s' := sendMessage now message s in
    promise s' (fresh s) = Some (Rejected (ErrorMsg "WebSocket is not connected"))
    /\ sockets s' = sockets s
    /\ messageHandlers s' = messageHandlers s
    /\ timers s' = timers s.
Proof. intros now message s. apply sendMessage_refused. Qed.

Lemma sendMessage_not_connected_witness :
  ws_open initial = false
  /\ promise (sendMessage 5 (command "status") initial) 1
     = Some (Rejected (ErrorMsg "WebSocket is not connected")).
Proof.
  split; [reflexivity|].
  apply (sendMessage_not_connected 5 (command "status") initial). reflexivity.
Defined.

(** X2.  A message that [JSON.stringify] refuses is rejected with the
    exception caught, on an open socket too: no frame is sent, no handler is
    registered and no timer is armed. *)
Theorem sendMessage_unserialisable :
  forall now message s,
    out_json message = None ->
    let s' := sendMessage now message s in
    (exists r, promise s' (fresh s) = Some (Rejected r))
    /\ (ws_open s = true -> promise s' (fresh s) = Some (Rejected Caught))
    /\ sockets s' = sockets s
    /\ messageHandlers s' = messageHandlers s
    /\ timers s' = timers s.
Proof.
  intros now message s Hjson s'. subst s'.
  destruct (ws_open s) eqn:Hopen.
  - assert (Hs : sendMessage now message s = reject (fresh s) Caught (new_promise s)).
    { unfold sendMessage. assert (ws_open (new_promise s) = true) as -> by done.
      rewrite Hjson. unfold ws_open in Hopen.
      change (ws (new_promise s)) with (ws s). by destruct (ws s). }
    rewrite Hs. unfold reject.
    assert (Hp : promise (settle (fresh s) (Rejected Caught) (new_promise s)) (fresh s)
                 = Some (Rejected Caught)) by apply promise_settle_eq, promise_new.
    destruct (settle_frame (fresh s) (Rejected Caught) (new_promise s))
      as (-> & -> & -> & _).
    split; [by eexists|]. done.
  - destruct (sendMessage_refused now message s Hopen) as (Hp & ? & ? & ?).
    split; [by eexists|]. done.
Qed.

Lemma sendMessage_unserialisable_witness :
  out_json (mkOut (Some (VStr "status")) None) = None
  /\ ws_open connected = true
  /\ promise (sendMessage 5 (mkOut (Some (VStr "status")) None) connected) 3
     = Some (Rejected Caught).
Proof.
  split; [reflexivity|]. split; [vm_compute; reflexivity|].
  apply (proj1 (proj2 (sendMessage_unserialisable 5 (mkOut (Some (VStr "status")) None)
                         connected eq_refl))).
  vm_compute. reflexivity.
Defined.

(** ** Inbound frames *)

Lemma only_logs_fields s s' :
  only_logs s s' ->
  messageHandlers s' = messageHandlers s /\ promises s' = promises s
  /\ calls s' = calls s /\ timers s' = timers s /\ fresh s' = fresh s
  /\ sockets s' = sockets s /\ pingInterval s' = pingInterval s
  /\ ws s' = ws s /\ reconnectAttempts s' = reconnectAttempts s
  /\ reconnectTimeout s' = reconnectTimeout s.
Proof. intros ->. done. Qed.

(** What [onmessage] does with a frame whose [type] can be read and that is
    not a pong: the log entries, then the handler. *)
Lemma onmessage_not_pong now data ty s :
  prop data "type" = Some ty ->
  is_pong data = false ->
  exists s7 : option State,
    (match s7 with
     | Some s7 =>
         only_logs s s7
         /\ (logs_entry ty = false -> s7 = s)
         /\ (logs_entry ty = true -> exists e, eventLogs s7 = push_log e (eventLogs s))
         /\ entries_readable data ty
     | None =>
         is_str ty "settings_synchronized" = true
         /\ object_entries (default VUndef (prop data "synced_settings")) = None
     end)
    /\ onmessage now (Some data) s
       = match s7 with
         | Some s7 =>
             match dispatch data ty s7 with
             | Done s8 => s8
             | Thrown s8 => addLog now Error "Failed to parse server message" VUndef s8
             end
         | None => addLog now Error "Failed to parse server message" VUndef s
         end.
Proof.
  intros Hty Hpong. unfold onmessage. rewrite Hty. cbv zeta.
  unfold is_pong in Hpong. rewrite Hty in Hpong.
  assert (Hp : is_str ty "pong"
               || is_str (default VUndef (prop data "command")) "pong" = false).
  { destruct (prop data "command") as [c|] eqn:Hc; [done|].
    destruct data; cbn in Hty, Hc; simplify_eq. }
  rewrite Hp. clear Hp Hpong Hty. unfold logs_entry, entries_readable, when.
  assert (Hsilent : exists s7 : option State,
    match s7 with
    | Some s7 =>
        only_logs s s7
        /\ (false = false -> s7 = s)
        /\ (false = true -> exists e, eventLogs s7 = push_log e (eventLogs s))
        /\ (false = true ->
            is_Some (object_entries (default VUndef (prop data "synced_settings"))))
    | None => False
    end /\ Some s = s7).
  { exists (Some s). repeat split; try done. unfold only_logs. by destruct s. }
  destruct ty as [| |b|z|t|items|entries]; cbn [is_str orb]; try exact Hsilent.
  all: clear Hsilent.
  all: repeat match goal with
  | |- context [String.eqb ?x ?lit] =>
      is_var x; destruct (String.eqb_spec x lit) as [->|_];
        [cbn [String.eqb Ascii.eqb Bool.eqb orb andb]|]
  end.
  all: cbn [orb].
  all: try (destruct (object_entries (default VUndef (prop data "synced_settings")))
              as [es|] eqn:Hes).
  all: try (eexists (Some _); split; [|reflexivity];
            repeat split; try done;
            first [ unfold only_logs; reflexivity
                  | unfold only_logs; by destruct s
                  | intros _; by eexists ]).
  all: try (exists None; split; [done | reflexivity]).
Qed.

Lemma response_tags_unlogged :
  map_Forall (fun _ tag => logs_entry (VStr tag) || is_str (VStr tag) "pong" = false)
             responseMap.
Proof. apply (bool_decide_unpack _). vm_compute. exact I. Qed.

Lemma getResponseType_tag name tag :
  getResponseType name = Some (Tag tag) ->
  responseMap !! name = Some tag /\ logs_entry (VStr tag) = false /\ name <> "ping".
Proof.
  unfold getResponseType. intros H.
  destruct (responseMap !! name) as [t|] eqn:Hm.
  - destruct (truthy (VStr t)); [|done]. simplify_eq.
    pose proof (response_tags_unlogged _ _ Hm) as Hu. apply orb_false_iff in Hu.
    repeat split; [apply Hu|]. intros ->. vm_compute in Hm. discriminate.
  - by case_bool_decide.
Qed.

(** What a request on the open socket leaves behind. *)
Lemma sendMessage_request now name text sock key s :
  connected_to s sock ->
  getResponseType name = Some key ->
  name <> "ping" ->
  sendMessage now (request name text) s
  = setTimeout now 10000 (RequestTimeout (fresh s) key)
      (set_messageHandlers
         (<[key := OneShot (fresh s) key]> (messageHandlers s))
         (socket_send sock text (new_promise s))).
Proof.
  intros [Hws Hopen] Hkey Hping. unfold sendMessage, request. cbn [out_json out_command].
  assert (ws (new_promise s) = Some sock) as -> by done.
  assert (ws_open (new_promise s) = true) as ->.
  { unfold ws_open. change (ws (new_promise s)) with (ws s). rewrite Hws.
    change (socket_state (new_promise s) sock) with (socket_state s sock).
    by rewrite Hopen. }
  cbn [to_str is_str]. rewrite Hkey.
  destruct (String.eqb_spec name "ping") as [->|_]; [done|]. done.
Qed.

(** X3.  A request and its reply: on the open socket, [sendMessage] of a
    command of the table sends the text, registers the one-time handler and
    leaves the promise pending; the first frame whose [type] is the reply tag
    resolves the promise with the whole parsed frame and removes the handler,
    without writing to the log or calling any subscriber. *)
Theorem reply_resolves_request :
  forall now later name text sock tag data s,
    connected_to s sock ->
    getResponseType name = Some (Tag tag) ->
    prop data "type" = Some (VStr tag) ->
    is_pong data = false ->
    let s1 := sendMessage now (request name text) s in
    let s2 := onmessage later (Some data) s1 in
    outstanding s1 (fresh s) (Tag tag)
    /\ (sent <$> sockets s1 !! sock) = ((fun so => (sent so ++ [text])%list) <$> sockets s !! sock)
    /\ promise s2 (fresh s) = Some (Resolved data)
    /\ messageHandlers s2 !! Tag tag = None
    /\ eventLogs s2 = eventLogs s
    /\ calls s2 = calls s.
Proof.
  intros now later name text sock tag data s Hc Hkey Hty Hpong s1 s2.
  destruct (getResponseType_tag name tag Hkey) as (_ & Hlog & Hping).
  assert (Hs1 : s1 = setTimeout now 10000 (RequestTimeout (fresh s) (Tag tag))
      (set_messageHandlers
         (<[Tag tag := OneShot (fresh s) (Tag tag)]> (messageHandlers s))
         (socket_send sock text (new_promise s))))
    by (by apply sendMessage_request).
  assert (Hh : messageHandlers s1 !! Tag tag = Some (OneShot (fresh s) (Tag tag))).
  { rewrite Hs1. cbn [messageHandlers setTimeout set_fresh set_timers set_messageHandlers].
    apply lookup_insert_eq. }
  assert (Hp : promise s1 (fresh s) = Some Pending).
  { rewrite Hs1. apply promise_new. }
  split; [done|]. split.
  { rewrite Hs1. cbn [sockets setTimeout set_fresh set_timers set_messageHandlers
                      socket_send set_sockets new_promise set_promises].
    rewrite lookup_alter_eq. by destruct (sockets s !! sock). }
  destruct (onmessage_not_pong later data (VStr tag) s1 Hty Hpong) as (s7 & H7 & Hm).
  destruct s7 as [s7|].
  2:{ destruct H7 as [H7 _]. unfold logs_entry in Hlog.
      rewrite H7 in Hlog. by rewrite !orb_true_r in Hlog. }
  destruct H7 as (_ & Hsame & _). rewrite (Hsame Hlog) in Hm.
  subst s2. rewrite Hm. unfold dispatch. rewrite Hh. unfold resolve.
  destruct (settle_frame (fresh s) (Resolved data)
              (set_messageHandlers (delete (Tag tag) (messageHandlers s1)) s1))
    as (_ & -> & _ & -> & -> & _).
  split; [by apply promise_settle_eq|].
  cbn [messageHandlers set_messageHandlers eventLogs calls].
  split; [apply lookup_delete_eq|]. by rewrite Hs1.
Qed.

Lemma reply_resolves_request_witness :
  connected_to connected 1
  /\ getResponseType "single_shot" = Some (Tag "shot_result")
  /\ prop (frame "shot_result") "type" = Some (VStr "shot_result")
  /\ is_pong (frame "shot_result") = false
  /\ promise (onmessage 9 (Some (frame "shot_result"))
               (sendMessage 5 (request "single_shot" "text") connected)) 3
     = Some (Resolved (frame "shot_result")).
Proof.
  assert (H1 : connected_to connected 1) by (vm_compute; split; reflexivity).
  assert (H2 : getResponseType "single_shot" = Some (Tag "shot_result"))
    by (vm_compute; reflexivity).
  repeat (split; [first [assumption | reflexivity]|]).
  exact (proj1 (proj2 (proj2
    (reply_resolves_request 5 9 "single_shot" "text" 1%nat "shot_result"
       (frame "shot_result") connected H1 H2 eq_refl eq_refl)))).
Defined.

(** ** Subscribers *)

Lemma readable_frame now data ty s :
  prop data "type" = Some ty ->
  is_pong data = false ->
  entries_readable data ty ->
  exists s7,
    messageHandlers s7 = messageHandlers s /\ promises s7 = promises s
    /\ calls s7 = calls s
    /\ (logs_entry ty = false -> s7 = s)
    /\ (logs_entry ty = true -> exists e, eventLogs s7 = push_log e (eventLogs s))
    /\ onmessage now (Some data) s
       = match dispatch data ty s7 with
         | Done s8 => s8
         | Thrown s8 => addLog now Error "Failed to parse server message" VUndef s8
         end.
Proof.
  intros Hty Hpong Hr.
  destruct (onmessage_not_pong now data ty s Hty Hpong) as ([s7|] & H7 & Hm).
  - exists s7. destruct H7 as (Hol & ? & ? & _).
    destruct (only_logs_fields _ _ Hol) as (? & ? & ? & _). done.
  - destruct H7 as [Hs Hnone]. destruct (Hr Hs) as [es Hes]. congruence.
Qed.

(** X4.  A frame whose [type] has a subscriber, and whose log entry, if it
    has one, interpolates primitive values only, makes the hook call that
    subscriber's callback once, with the whole parsed frame.  What the
    callback then does to the hook is its own. *)
Theorem subscriber_receives_frame :
  forall now t h data s,
    messageHandlers s !! Tag t = Some (Callback h false) ->
    prop data "type" = Some (VStr t) ->
    is_pong data = false ->
    entries_readable data (VStr t) ->
    printable data (VStr t) ->
    calls (onmessage now (Some data) s) = (h, data) :: calls s.
Proof.
  intros now t h data s Hh Hty Hpong Hr _.
  destruct (readable_frame now data (VStr t) s Hty Hpong Hr)
    as (s7 & H1 & H2 & H3 & _ & _ & ->).
  unfold dispatch. rewrite H1, Hh.
  cbn [calls set_calls]. by rewrite H3.
Qed.

Lemma subscriber_receives_frame_witness :
  let s := subscribe "status" 7 false connected in
  messageHandlers s !! Tag "status" = Some (Callback 7 false)
  /\ prop (frame "status") "type" = Some (VStr "status")
  /\ is_pong (frame "status") = false
  /\ entries_readable (frame "status") (VStr "status")
  /\ printable (frame "status") (VStr "status")
  /\ calls (onmessage 9 (Some (frame "status")) s) = [(7%nat, frame "status")].
Proof.
  cbv zeta.
  assert (H1 : messageHandlers (subscribe "status" 7 false connected) !! Tag "status"
               = Some (Callback 7 false)) by (vm_compute; reflexivity).
  assert (H4 : entries_readable (frame "status") (VStr "status"))
    by (intros H; vm_compute in H; discriminate).
  assert (H5 : printable (frame "status") (VStr "status")) by reflexivity.
  split; [exact H1|]. split; [reflexivity|]. split; [reflexivity|].
  split; [exact H4|]. split; [exact H5|].
  exact (subscriber_receives_frame 9 "status" 7%nat (frame "status")
           (subscribe "status" 7 false connected) H1 eq_refl eq_refl H4 H5).
Defined.

(** X5.  The handler table holds one handler per tag and the function that
    [subscribe] returns deletes by tag: after a second subscription to the
    same tag, calling the first subscriber's unsubscribe function removes
    the second subscriber, and a frame with that tag then reaches no
    callback. *)
Theorem stale_unsubscribe_silences_newer_subscriber :
  forall now t h1 h2 throws1 throws2 data s,
    prop data "type" = Some (VStr t) ->
    is_pong data = false ->
    entries_readable data (VStr t) ->
    let both := subscribe t h2 throws2 (subscribe t h1 throws1 s) in
    let s' := onmessage now (Some data) (unsubscribe t both) in
    messageHandlers both !! Tag t = Some (Callback h2 throws2)
    /\ messageHandlers (unsubscribe t both) !! Tag t = None
    /\ calls s' = calls s
    /\ promises s' = promises s.
Proof.
  intros now t h1 h2 throws1 throws2 data s Hty Hpong Hr both s'.
  assert (Hb : messageHandlers both !! Tag t = Some (Callback h2 throws2)).
  { subst both. unfold subscribe. cbn [messageHandlers set_messageHandlers].
    apply lookup_insert_eq. }
  assert (Hu : messageHandlers (unsubscribe t both) !! Tag t = None).
  { unfold unsubscribe. cbn [messageHandlers set_messageHandlers].
    apply lookup_delete_eq. }
  split; [done|]. split; [done|]. subst s'.
  destruct (readable_frame now data (VStr t) (unsubscribe t both) Hty Hpong Hr)
    as (s7 & H1 & H2 & H3 & _ & _ & ->).
  unfold dispatch. rewrite H1, Hu. by rewrite H2, H3.
Qed.

Lemma stale_unsubscribe_silences_newer_subscriber_witness :
  prop (frame "status") "type" = Some (VStr "status")
  /\ is_pong (frame "status") = false
  /\ entries_readable (frame "status") (VStr "status")
  /\ calls (onmessage 9 (Some (frame "status"))
              (unsubscribe "status"
                 (subscribe "status" 8 false (subscribe "status" 7 false connected))))
     = [].
Proof.
  assert (H4 : entries_readable (frame "status") (VStr "status"))
    by (intros H; vm_compute in H; discriminate).
  repeat (split; [first [assumption | reflexivity]|]).
  exact (proj1 (proj2 (proj2
    (stale_unsubscribe_silences_newer_subscriber 9 "status" 7%nat 8%nat false false
       (frame "status") connected eq_refl eq_refl H4)))).
Defined.

(** X6.  A frame that fails before the handler lookup (text that
    [JSON.parse] refuses, the value [null], or a [settings_synchronized]
    frame whose [synced_settings] is missing) does exactly one thing: it
    adds the entry [Failed to parse server message].  No handler runs and no
    promise changes. *)
Theorem unreadable_frame_only_logs :
  forall now parsed s,
    parsed = None
    \/ parsed = Some VNull
    \/ (exists data ty,
          parsed = Some data /\ prop data "type" = Some ty /\ is_pong data = false
          /\ is_str ty "settings_synchronized" = true
          /\ object_entries (default VUndef (prop data "synced_settings")) = None) ->
    onmessage now parsed s
    = addLog now Error "Failed to parse server message" VUndef s.
Proof.
  intros now parsed s [-> | [-> | (data & ty & -> & Hty & Hpong & Hs & Hnone)]];
    [done | done |].
  destruct (onmessage_not_pong now data ty s Hty Hpong) as ([s7|] & H7 & Hm);
    [|done].
  destruct H7 as (_ & _ & _ & Hr).
  destruct (Hr Hs) as [es Hes]. congruence.
Qed.

Lemma unreadable_frame_only_logs_witness :
  let data := VObj [("type", VStr "settings_synchronized")] in
  let s := subscribe "settings_synchronized" 7 false connected in
  (prop data "type" = Some (VStr "settings_synchronized")
   /\ is_pong data = false
   /\ object_entries (default VUndef (prop data "synced_settings")) = None)
  /\ calls (onmessage 9 (Some data) s) = []
  /\ map log_message (take 1 (eventLogs (onmessage 9 (Some data) s)))
     = ["Failed to parse server message"].
Proof.
  cbv zeta.
  split; [repeat split; reflexivity|].
  rewrite (unreadable_frame_only_logs 9
             (Some (VObj [("type", VStr "settings_synchronized")]))
             (subscribe "settings_synchronized" 7 false connected)).
  - split; vm_compute; reflexivity.
  - right. right. eexists _, _. repeat split; reflexivity.
Defined.

(** X7.  On a frame whose log entry, if it has one, interpolates primitive
    values only, a subscriber callback that throws has been called, and the
    exception is reported in the log as [Failed to parse server message],
    after the frame's own entry if it has one. *)
Theorem throwing_subscriber_is_logged :
  forall now t h data s,
    messageHandlers s !! Tag t = Some (Callback h true) ->
    prop data "type" = Some (VStr t) ->
    is_pong data = false ->
    entries_readable data (VStr t) ->
    printable data (VStr t) ->
    let s' := onmessage now (Some data) s in
    calls s' = (h, data) :: calls s
    /\ (logs_entry (VStr t) = false ->
        eventLogs s' = push_log (parse_failure now) (eventLogs s))
    /\ (logs_entry (VStr t) = true ->
        exists e, eventLogs s'
                  = push_log (parse_failure now) (push_log e (eventLogs s))).
Proof.
  intros now t h data s Hh Hty Hpong Hr _ s'. subst s'.
  destruct (readable_frame now data (VStr t) s Hty Hpong Hr)
    as (s7 & H1 & H2 & H3 & Hsame & Hone & ->).
  unfold dispatch. rewrite H1, Hh.
  cbn [calls eventLogs addLog set_eventLogs set_calls]. rewrite H3.
  split; [done|]. split.
  - intros Hl. by rewrite (Hsame Hl).
  - intros Hl. destruct (Hone Hl) as [e He]. exists e. by rewrite He.
Qed.

Lemma throwing_subscriber_is_logged_witness :
  let data := VObj [("type", VStr "welcome"); ("message", VStr "hello")] in
  let s := subscribe "welcome" 7 true connected in
  messageHandlers s !! Tag "welcome" = Some (Callback 7 true)
  /\ prop data "type" = Some (VStr "welcome")
  /\ is_pong data = false
  /\ entries_readable data (VStr "welcome")
  /\ printable data (VStr "welcome")
  /\ calls (onmessage 9 (Some data) s) = [(7%nat, data)]
  /\ map log_message (take 2 (eventLogs (onmessage 9 (Some data) s)))
     = ["Failed to parse server message"; "Welcome: hello"].
Proof.
  cbv zeta.
  assert (H1 : messageHandlers (subscribe "welcome" 7 true connected) !! Tag "welcome"
               = Some (Callback 7 true)) by (vm_compute; reflexivity).
  assert (H4 : entries_readable
                 (VObj [("type", VStr "welcome"); ("message", VStr "hello")])
                 (VStr "welcome"))
    by (intros H; vm_compute in H; discriminate).
  assert (H5 : printable (VObj [("type", VStr "welcome"); ("message", VStr "hello")])
                 (VStr "welcome")) by reflexivity.
  split; [exact H1|]. split; [reflexivity|]. split; [reflexivity|].
  split; [exact H4|]. split; [exact H5|]. split.
  - exact (proj1 (throwing_subscriber_is_logged 9 "welcome" 7%nat
                    (VObj [("type", VStr "welcome"); ("message", VStr "hello")])
                    (subscribe "welcome" 7 true connected) H1 eq_refl eq_refl H4 H5)).
  - vm_compute. reflexivity.
Defined.

(** X8.  A readable frame that is not a pong and meets no throwing callback
    writes one log entry when its [type] is one of the eight well-known
    tags, and none otherwise. *)
Theorem frame_log_entries :
  forall now data ty s,
    prop data "type" = Some ty ->
    is_pong data = false ->
    entries_readable data ty ->
    (forall t h, ty = VStr t -> messageHandlers s !! Tag t <> Some (Callback h true)) ->
    let s' := onmessage now (Some data) s in
    (logs_entry ty = false -> eventLogs s' = eventLogs s)
    /\ (logs_entry ty = true -> exists e, eventLogs s' = push_log e (eventLogs s)).
Proof.
  intros now data ty s Hty Hpong Hr Hquiet s'. subst s'.
  destruct (readable_frame now data ty s Hty Hpong Hr)
    as (s7 & H1 & H2 & H3 & Hsame & Hone & ->).
  assert (Hd : eventLogs (match dispatch data ty s7 with
                          | Done s8 => s8
                          | Thrown s8 =>
                              addLog now Error "Failed to parse server message" VUndef s8
                          end) = eventLogs s7).
  { pose proof (dispatch_logs data ty s7) as Hl.
    destruct (dispatch data ty s7) eqn:Hdis; [done|].
    exfalso. unfold dispatch in Hdis. destruct ty; try done.
    rewrite H1 in Hdis.
    destruct (messageHandlers s !! Tag s1) as [[|h []]|] eqn:Hk; try done.
    by eapply Hquiet. }
  rewrite Hd. split.
  - intros Hl. by rewrite (Hsame Hl).
  - intros Hl. apply (Hone Hl).
Qed.

Lemma frame_log_entries_witness :
  let data := VObj [("type", VStr "image_captured"); ("alias", VStr "Left")] in
  prop data "type" = Some (VStr "image_captured")
  /\ is_pong data = false
  /\ entries_readable data (VStr "image_captured")
  /\ logs_entry (VStr "image_captured") = true
  /\ map log_message (eventLogs (onmessage 9 (Some data) initial))
     = ["Image captured by Left"].
Proof.
  cbv zeta.
  assert (H3 : entries_readable
                 (VObj [("type", VStr "image_captured"); ("alias", VStr "Left")])
                 (VStr "image_captured"))
    by (intros H; vm_compute in H; discriminate).
  repeat (split; [first [assumption | reflexivity]|]).
  destruct (frame_log_entries 9
              (VObj [("type", VStr "image_captured"); ("alias", VStr "Left")])
              (VStr "image_captured") initial eq_refl eq_refl H3) as [_ H].
  - intros t h _ Hh. vm_compute in Hh. discriminate.
  - destruct (H eq_refl) as [e He]. vm_compute. reflexivity.
Defined.

(** ** Invariants of the event loop *)

(** Every run of [onmessage] is a change of the log, followed or not by the
    handler found under [data.type] and by the entry for its exception. *)
Lemma onmessage_cases now parsed s :
  exists s7,
    only_logs s s7
    /\ (onmessage now parsed s = s7
        \/ exists data ty,
             parsed = Some data /\ prop data "type" = Some ty
             /\ onmessage now parsed s
                = match dispatch data ty s7 with
                  | Done s8 => s8
                  | Thrown s8 =>
                      addLog now Error "Failed to parse server message" VUndef s8
                  end).
Proof.
  assert (Hsame : only_logs s s) by (unfold only_logs; by destruct s).
  assert (Hfail : only_logs s (addLog now Error "Failed to parse server message" VUndef s))
    by reflexivity.
  destruct parsed as [data|]; [|eexists; split; [exact Hfail | by left]].
  destruct (prop data "type") as [ty|] eqn:Hty.
  2:{ eexists; split; [exact Hfail|]. left. unfold onmessage. by rewrite Hty. }
  destruct (is_pong data) eqn:Hpong.
  - exists s. split; [done|]. left.
    unfold onmessage, is_pong in *. rewrite Hty in *.
    destruct (prop data "command") as [c|] eqn:Hc; [|done].
    cbv zeta. cbn [from_option id]. by rewrite Hpong.
  - destruct (onmessage_not_pong now data ty s Hty Hpong) as ([s7|] & H7 & Hm).
    + exists s7. split; [apply H7|]. right. by exists data, ty.
    + eexists; split; [exact Hfail | by left].
Qed.

(** Peel a state transformer that leaves the observed fields alone;
    [L s] is the frame lemma of the invariant at hand. *)
Ltac frame_head L :=
  lazymatch goal with
  | |- _ (set_isConnected _ ?s) => apply (L s); [reflexivity..|]
  | |- _ (set_isConnecting _ ?s) => apply (L s); [reflexivity..|]
  | |- _ (set_connectionError _ ?s) => apply (L s); [reflexivity..|]
  | |- _ (set_eventLogs _ ?s) => apply (L s); [reflexivity..|]
  | |- _ (set_ws _ ?s) => apply (L s); [reflexivity..|]
  | |- _ (set_reconnectAttempts _ ?s) => apply (L s); [reflexivity..|]
  | |- _ (set_reconnectTimeout _ ?s) => apply (L s); [reflexivity..|]
  | |- _ (set_sockets _ ?s) => apply (L s); [reflexivity..|]
  | |- _ (set_calls _ ?s) => apply (L s); [reflexivity..|]
  | |- _ (set_messageHandlers _ ?s) => apply (L s); [reflexivity..|]
  | |- _ (set_promises _ ?s) => apply (L s); [reflexivity..|]
  | |- _ (set_pingInterval _ ?s) => apply (L s); [reflexivity..|]
  | |- _ (set_timers _ ?s) => apply (L s); [reflexivity..|]
  | |- _ (set_fresh _ ?s) => apply (L s); [reflexivity..|]
  | |- _ (addLog _ _ _ _ ?s) => apply (L s); [reflexivity..|]
  | |- _ (socket_send _ _ ?s) => apply (L s); [reflexivity..|]
  | |- _ (set_readyState _ _ ?s) => apply (L s); [reflexivity..|]
  | |- _ (when _ _ _) => unfold when at 1
  | |- _ (match ?x with _ => _ end) => destruct x eqn:?
  end.

(** *** One ping timer *)

Lemma ping_unique_frame s s' :
  timers s' = timers s -> pingInterval s' = pingInterval s ->
  ping_unique s -> ping_unique s'.
Proof. unfold ping_unique. by intros -> ->. Qed.

Lemma ping_unique_settle p o s : ping_unique s -> ping_unique (settle p o s).
Proof. intros H. unfold settle. repeat frame_head ping_unique_frame; done. Qed.

Lemma ping_unique_clearTimeout id s : ping_unique s -> ping_unique (clearTimeout id s).
Proof. intros H. by apply map_Forall_delete. Qed.

Lemma ping_unique_setTimeout now delay a s :
  a <> Ping -> ping_unique s -> ping_unique (setTimeout now delay a s).
Proof.
  intros Ha H. unfold ping_unique, setTimeout.
  cbn [timers pingInterval set_fresh set_timers].
  apply map_Forall_insert_2; [done | exact H].
Qed.

Lemma ping_unique_stopPing s : ping_unique s -> ping_unique (stopPing s).
Proof.
  intros H. unfold stopPing, ping_unique.
  destruct (pingInterval s) as [id|] eqn:Hp;
    cbn [timers pingInterval set_pingInterval clearTimeout set_timers].
  - intros id' t Ht Ha. apply lookup_delete_Some in Ht as [Hne Ht].
    specialize (H id' t Ht Ha). congruence.
  - intros id' t Ht Ha. specialize (H id' t Ht Ha). congruence.
Qed.

Lemma ping_unique_startPing now s : ping_unique s -> ping_unique (startPing now s).
Proof.
  intros H. unfold startPing, ping_unique.
  cbn [timers pingInterval set_pingInterval setTimeout set_fresh set_timers].
  apply map_Forall_insert_2; [done|].
  intros id' t Ht Ha. exfalso.
  destruct (pingInterval s) as [id|] eqn:Hp.
  - cbn [timers clearTimeout set_timers] in Ht.
    apply lookup_delete_Some in Ht as [Hne Ht].
    specialize (H id' t Ht Ha). congruence.
  - specialize (H id' t Ht Ha). congruence.
Qed.

Ltac ping_head :=
  lazymatch goal with
  | |- _ (settle _ _ _) => apply ping_unique_settle
  | |- _ (clearTimeout _ _) => apply ping_unique_clearTimeout
  | |- _ (stopPing _) => apply ping_unique_stopPing
  | |- _ (startPing _ _) => apply ping_unique_startPing
  | |- _ (setTimeout _ _ _ _) => apply ping_unique_setTimeout; [discriminate|]
  | |- _ => frame_head ping_unique_frame
  end.

Ltac ping_peel := repeat (cbv zeta; first [assumption | ping_head]).

Lemma ping_unique_dispatch now data ty s :
  ping_unique s ->
  ping_unique (match dispatch data ty s with
               | Done s8 => s8
               | Thrown s8 => addLog now Error "Failed to parse server message" VUndef s8
               end).
Proof.
  intros H. unfold dispatch, resolve.
  destruct ty; try done.
  destruct (messageHandlers s !! Tag s0) as [[q r|h []]|]; ping_peel.
Qed.

Lemma ping_unique_onmessage now parsed s :
  ping_unique s -> ping_unique (onmessage now parsed s).
Proof.
  intros H. destruct (onmessage_cases now parsed s) as (s7 & Hol & Hm).
  assert (H7 : ping_unique s7).
  { destruct (only_logs_fields _ _ Hol) as (_ & _ & _ & Ht & _ & _ & Hp & _).
    by apply (ping_unique_frame s). }
  destruct Hm as [-> | (data & ty & _ & _ & ->)]; [done|].
  by apply ping_unique_dispatch.
Qed.

Lemma ping_unique_connect url_ok now s :
  ping_unique s -> ping_unique (connect url_ok now s).
Proof. intros H. unfold connect. ping_peel. Qed.

Lemma ping_unique_disconnect now s : ping_unique s -> ping_unique (disconnect now s).
Proof. intros H. unfold disconnect, socket_close. ping_peel. Qed.

Lemma ping_unique_sendMessage now message s :
  ping_unique s -> ping_unique (sendMessage now message s).
Proof. intros H. unfold sendMessage, resolve, reject. ping_peel. Qed.

Lemma ping_unique_onopen now s : ping_unique s -> ping_unique (onopen now s).
Proof. intros H. unfold onopen. ping_peel. Qed.

Lemma ping_unique_onclose now code reason s :
  ping_unique s -> ping_unique (onclose now code reason s).
Proof. intros H. unfold onclose. ping_peel. Qed.

Lemma ping_unique_fire url_ok now id s :
  ping_unique s -> ping_unique (fire url_ok now id s).
Proof.
  intros H. unfold fire.
  destruct (timers s !! id) as [t|] eqn:Hid; [|done].
  destruct (Z.leb (due t) now); [|done].
  destruct (action t) eqn:Ha.
  - apply ping_unique_connect. ping_peel.
  - unfold request_timeout, reject. ping_peel.
  - assert (Hr : ping_unique
                   (set_timers (<[id := mkTimer (due t + 30000) Ping]> (timers s)) s)).
    { unfold ping_unique. cbn [timers pingInterval set_timers].
      apply map_Forall_insert_2; [|exact H]. intros _. by apply (H id t). }
    unfold ping_tick. ping_peel.
Qed.

Lemma ping_unique_step url_ok now e s :
  ping_unique s -> ping_unique (step url_ok now e s).
Proof.
  intros H. destruct e; cbn [step].
  - by apply ping_unique_connect.
  - by apply ping_unique_disconnect.
  - by apply ping_unique_sendMessage.
  - unfold subscribe. ping_peel.
  - unfold unsubscribe. ping_peel.
  - ping_peel.
  - repeat case_match; try done. apply ping_unique_onopen. ping_peel.
  - repeat case_match; try done; by apply ping_unique_onmessage.
  - repeat case_match; try done; apply ping_unique_onclose; ping_peel.
  - repeat case_match; try done; unfold onerror; ping_peel.
  - by apply ping_unique_fire.
Qed.

Lemma ping_unique_run url_ok trace s :
  ping_unique s -> ping_unique (run url_ok trace s).
Proof.
  revert s. induction trace as [|[now e] rest IH]; intros s H; [done|].
  cbn [run]. apply IH. by apply ping_unique_step.
Qed.

(** X9.  Heartbeat timers never stack: in every state the hook can reach,
    whatever the order of connects, opens, closes, disconnects and timer
    runs, at most one ping interval is pending, and it is the one whose id
    [pingInterval] holds. *)
Theorem one_ping_interval :
  forall url_ok trace id1 id2 t1 t2,
    let s := run url_ok trace initial in
    timers s !! id1 = Some t1 -> action t1 = Ping ->
    timers s !! id2 = Some t2 -> action t2 = Ping ->
    id1 = id2 /\ pingInterval s = Some id1.
Proof.
  intros url_ok trace id1 id2 t1 t2 s H1 A1 H2 A2.
  assert (Hu : ping_unique s).
  { apply ping_unique_run. unfold ping_unique. apply map_Forall_empty. }
  pose proof (Hu id1 t1 H1 A1) as P1. pose proof (Hu id2 t2 H2 A2) as P2.
  split; [congruence | done].
Qed.

Lemma one_ping_interval_witness :
  let trace := [(0, Connect); (1, SockOpen 1); (100, SockClose 1 1006 EmptyString);
                (1100, TimerFire 3); (1200, SockOpen 4)] in
  timers (run true trace initial) !! 5%nat = Some (mkTimer 31200 Ping)
  /\ action (mkTimer 31200 Ping) = Ping
  /\ pingInterval (run true trace initial) = Some 5%nat.
Proof.
  cbv zeta.
  assert (H : timers (run true [(0, Connect); (1, SockOpen 1);
                                (100, SockClose 1 1006 EmptyString);
                                (1100, TimerFire 3); (1200, SockOpen 4)] initial)
              !! 5%nat = Some (mkTimer 31200 Ping)) by (vm_compute; reflexivity).
  split; [exact H|]. split; [reflexivity|].
  exact (proj2 (one_ping_interval true _ 5%nat 5%nat _ _ H eq_refl H eq_refl)).
Defined.

(** ** Reply and timeout *)



(** ** The connection life cycle *)

Lemma settle_isConnected p o s : isConnected (settle p o s) = isConnected s.
Proof. unfold settle. by repeat case_match. Qed.

Lemma sendMessage_isConnected now message s :
  isConnected (sendMessage now message s) = isConnected s.
Proof.
  unfold sendMessage, resolve, reject.
  repeat case_match; rewrite ?settle_isConnected; done.
Qed.

Lemma fire_isConnected url_ok now id s :
  no_reconnect_pending s -> isConnected (fire url_ok now id s) = isConnected s.
Proof.
  intros Hn. unfold fire.
  destruct (timers s !! id) as [t|] eqn:Hid; [|done].
  destruct (Z.leb (due t) now); [|done].
  destruct (action t) eqn:Ha.
  - by destruct (Hn id t Hid).
  - unfold request_timeout, reject. case_match; rewrite ?settle_isConnected; done.
  - unfold ping_tick. by repeat case_match.
Qed.

Lemma connect_refused now s :
  ws_open s = false ->
  let s' := connect false now s in
  sockets s' = sockets s /\ timers s' = timers s /\ ws s' = ws s
  /\ isConnected s' = isConnected s /\ isConnecting s' = false
  /\ connectionError s' = Some "Failed to create WebSocket connection".
Proof. intros H. unfold connect. by rewrite H. Qed.

Lemma never_opened_step now e s :
  sockets s = ∅ /\ isConnected s = false /\ no_reconnect_pending s ->
  let s' := step false now e s in
  sockets s' = ∅ /\ isConnected s' = false /\ no_reconnect_pending s'.
Proof.
  intros (Hs & Hc & Hn) s'.
  assert (Hall : all_closed s) by (unfold all_closed; rewrite Hs; apply map_Forall_empty).
  assert (Hidle : idle s) by done.
  destruct (decide (is_connect e = true)) as [He|He].
  - destruct e; try discriminate. subst s'. cbn [step].
    destruct (connect_refused now s (all_closed_not_open s Hall)) as (H1 & H2 & _ & H4 & _).
    split; [congruence|]. split; [congruence|].
    unfold no_reconnect_pending. by rewrite H2.
  - apply not_true_is_false in He.
    destruct (step_idle false now e s He Hidle) as [[Hn' _] Hs'].
    split; [subst s'; congruence|]. split; [|done].
    subst s'. destruct e; try discriminate; cbn [step]; try done.
    + by rewrite sendMessage_isConnected.
    + unfold socket_state. by rewrite Hs, lookup_empty.
    + unfold socket_state. by rewrite Hs, lookup_empty.
    + unfold socket_state. by rewrite Hs, lookup_empty.
    + unfold socket_state. by rewrite Hs, lookup_empty.
    + by rewrite fire_isConnected.
Qed.

(** X11.  When the WebSocket constructor rejects the URL, [connect] reports
    [Failed to create WebSocket connection] and gives up: on every trace the
    hook constructs no socket, never becomes connected and never arms a
    reconnect timer, so there is no automatic retry. *)
Theorem rejected_url_never_connects :
  forall trace,
    let s := run false trace initial in
    sockets s = ∅ /\ isConnected s = false /\ no_reconnect_pending s
    /\ (forall now,
          connectionError (connect false now s)
          = Some "Failed to create WebSocket connection"
          /\ isConnecting (connect false now s) = false).
Proof.
  intros trace s.
  assert (H : sockets s = ∅ /\ isConnected s = false /\ no_reconnect_pending s).
  { subst s.
    assert (H0 : sockets initial = ∅ /\ isConnected initial = false
                 /\ no_reconnect_pending initial).
    { repeat split. unfold no_reconnect_pending. apply map_Forall_empty. }
    revert H0. generalize initial.
    induction trace as [|[now e] rest IH]; intros s0 H0; [done|].
    cbn [run]. apply IH. by apply never_opened_step. }
  destruct H as (Hs & Hc & Hn). repeat split; try done.
  - assert (Hall : all_closed s) by (unfold all_closed; rewrite Hs; apply map_Forall_empty).
    apply (connect_refused now s (all_closed_not_open s Hall)).
  - assert (Hall : all_closed s) by (unfold all_closed; rewrite Hs; apply map_Forall_empty).
    apply (connect_refused now s (all_closed_not_open s Hall)).
Qed.

(** X12.  A ping interval that is due sends the ping frame on the open
    socket and is armed again 30 seconds after its due time; when
    [ws.current] is not open it sends nothing.  Either way the ping
    registers no handler and creates no promise: the heartbeat does not go
    through [sendMessage]. *)
Theorem ping_interval_tick :
  forall url_ok now id t s,
    timers s !! id = Some t ->
    action t = Ping ->
    due t <= now ->
    let s' := fire url_ok now id s in
    timers s' !! id = Some (mkTimer (due t + 30000) Ping)
    /\ (forall sock, connected_to s sock ->
          (sent <$> sockets s' !! sock)
          = ((fun so => (sent so ++ [ping_frame])%list) <$> sockets s !! sock))
    /\ (ws_open s = false -> sockets s' = sockets s)
    /\ messageHandlers s' = messageHandlers s
    /\ promises s' = promises s
    /\ eventLogs s' = eventLogs s.
Proof.
  intros url_ok now id t s Ht Ha Hdue s'. subst s'. unfold fire.
  rewrite Ht, Ha. apply Z.leb_le in Hdue. rewrite Hdue.
  set (s1 := set_timers (<[id := mkTimer (due t + 30000) Ping]> (timers s)) s).
  assert (Hopen1 : ws_open s1 = ws_open s) by done.
  assert (Ht1 : timers s1 !! id = Some (mkTimer (due t + 30000) Ping))
    by (subst s1; cbn [timers set_timers]; apply lookup_insert_eq).
  unfold ping_tick. change (ws s1) with (ws s). rewrite Hopen1.
  destruct (ws s) as [sock0|] eqn:Hws.
  - destruct (ws_open s) eqn:Hopen.
    + repeat split; try done.
      intros sock [Hw _]. assert (sock = sock0) as -> by congruence.
      cbn [sockets socket_send set_sockets set_timers]. rewrite lookup_alter_eq.
      change (sockets s1) with (sockets s). by destruct (sockets s !! sock0).
    + repeat split; try done. intros sock [Hw Hs]. exfalso.
      assert (sock = sock0) as -> by congruence.
      unfold ws_open in Hopen. rewrite Hws in Hopen. by rewrite Hs in Hopen.
  - repeat split; try done. intros sock [Hw _]. congruence.
Qed.

Lemma ping_interval_tick_witness :
  timers connected !! 2%nat = Some (mkTimer 30001 Ping)
  /\ action (mkTimer 30001 Ping) = Ping
  /\ due (mkTimer 30001 Ping) <= 30001
  /\ connected_to connected 1
  /\ (sent <$> sockets (fire true 30001 2 connected) !! 1%nat) = Some [ping_frame]
  /\ timers (fire true 30001 2 connected) !! 2%nat = Some (mkTimer 60001 Ping).
Proof.
  assert (H1 : timers connected !! 2%nat = Some (mkTimer 30001 Ping))
    by (vm_compute; reflexivity).
  assert (H3 : due (mkTimer 30001 Ping) <= 30001) by (cbn; lia).
  assert (H4 : connected_to connected 1) by (vm_compute; split; reflexivity).
  destruct (ping_interval_tick true 30001 2%nat _ connected H1 eq_refl H3)
    as (Ht & Hsent & _).
  split; [exact H1|]. split; [reflexivity|]. split; [exact H3|].
  split; [exact H4|]. split; [|exact Ht].
  rewrite (Hsent 1%nat H4). vm_compute. reflexivity.
Defined.

Lemma startPing_attempts now s :
  reconnectAttempts (startPing now s) = reconnectAttempts s.
Proof. unfold startPing. by case_match. Qed.

(** X13.  A successful open resets the backoff: whatever the attempt counter
    was, after the [open] event it is 0, the error is cleared and the hook
    is connected, so the next abnormal close reconnects after one second. *)
Theorem open_resets_backoff :
  forall url_ok now later sock code reason s,
    socket_state s sock = Some CONNECTING ->
    code <> 1000 ->
    let s1 := step url_ok now (SockOpen sock) s in
    let s2 := onclose later code reason s1 in
    reconnectAttempts s1 = 0
    /\ isConnected s1 = true /\ isConnecting s1 = false /\ connectionError s1 = None
    /\ socket_state s1 sock = Some OPEN
    /\ reconnect_scheduled s2 (fresh s1) (later + 1000).
Proof.
  intros url_ok now later sock code reason s Hc Hcode s1 s2.
  assert (Hs1 : s1 = onopen now (set_readyState sock OPEN s)).
  { subst s1. cbn [step]. by rewrite Hc. }
  assert (Ha : reconnectAttempts s1 = 0).
  { rewrite Hs1. unfold onopen. by rewrite startPing_attempts. }
  split; [done|].
  assert (Hflags : isConnected s1 = true /\ isConnecting s1 = false
                   /\ connectionError s1 = None /\ sockets s1 = sockets (set_readyState sock OPEN s)).
  { rewrite Hs1. unfold onopen, startPing. by repeat case_match. }
  destruct Hflags as (Hf1 & Hf2 & Hf3 & Hsock).
  split; [done|]. split; [done|]. split; [done|].
  split.
  - unfold socket_state in *. rewrite Hsock.
    cbn [sockets set_readyState set_sockets]. rewrite lookup_alter_eq.
    by destruct (sockets s !! sock).
  - destruct (onclose_schedules later code reason s1 Hcode) as [_ Hr].
    + rewrite Ha. done.
    + subst s2. by rewrite Ha in Hr.
Qed.

Lemma open_resets_backoff_witness :
  let retrying := run true (take 6 failed_retries) connected in
  socket_state retrying 8 = Some CONNECTING
  /\ 1006 <> 1000
  /\ reconnectAttempts retrying = 3
  /\ reconnectAttempts (step true 7350 (SockOpen 8) retrying) = 0
  /\ reconnect_scheduled
       (onclose 9000 1006 EmptyString (step true 7350 (SockOpen 8) retrying)) 10 10000.
Proof.
  cbv zeta.
  assert (H1 : socket_state (run true (take 6 failed_retries) connected) 8
               = Some CONNECTING) by (vm_compute; reflexivity).
  assert (H2 : 1006 <> 1000) by lia.
  destruct (open_resets_backoff true 7350 9000 8%nat 1006 EmptyString
              (run true (take 6 failed_retries) connected) H1 H2)
    as (Ha & _ & _ & _ & _ & Hr).
  split; [exact H1|]. split; [exact H2|]. split; [vm_compute; reflexivity|].
  split; [exact Ha|]. exact Hr.
Defined.

(** X14.  An explicit [connect()] after the retries are exhausted clears
    the error and opens a socket, but it does not reset the attempt counter:
    if that socket closes before it opens, the hook reports
    [Maximum reconnection attempts reached] again and arms no timer. *)
Theorem manual_connect_after_exhaustion :
  forall now later code reason s,
    maxReconnectAttempts <= reconnectAttempts s ->
    ws_open s = false ->
    let s1 := connect true now s in
    let s2 := step true later (SockClose (fresh s) code reason) s1 in
    connectionError s1 = None /\ isConnecting s1 = true
    /\ ws s1 = Some (fresh s)
    /\ socket_state s1 (fresh s) = Some CONNECTING
    /\ reconnectAttempts s1 = reconnectAttempts s
    /\ connectionError s2 = Some "Maximum reconnection attempts reached"
    /\ isConnecting s2 = false
    /\ timers s2 ⊆ timers s.
Proof.
  intros now later code reason s Hcap Hopen s1 s2.
  assert (Hs1 : s1 = set_ws (Some (fresh s))
        (set_fresh (S (fresh s))
           (set_sockets (<[fresh s := mkSocket CONNECTING [] None]> (sockets s))
              (set_connectionError None (set_isConnecting true s))))).
  { subst s1. unfold connect. by rewrite Hopen. }
  assert (Hst : socket_state s1 (fresh s) = Some CONNECTING).
  { rewrite Hs1. unfold socket_state.
    cbn [sockets set_ws set_fresh set_sockets]. by rewrite lookup_insert_eq. }
  split; [by rewrite Hs1|]. split; [by rewrite Hs1|]. split; [by rewrite Hs1|].
  split; [exact Hst|]. split; [by rewrite Hs1|].
  assert (Hs2 : s2 = onclose later code reason (set_readyState (fresh s) CLOSED s1)).
  { subst s2. cbn [step]. by rewrite Hst. }
  assert (Hcap1 : maxReconnectAttempts
                  <= reconnectAttempts (set_readyState (fresh s) CLOSED s1))
    by (by rewrite Hs1).
  rewrite Hs2.
  destruct (onclose_at_cap later code reason _ Hcap1) as (He & _ & Hi).
  destruct (onclose_no_schedule later code reason _ (or_intror Hcap1)) as [Hsub _].
  split; [exact He|]. split; [exact Hi|].
  etrans; [exact Hsub|]. by rewrite Hs1.
Qed.

Lemma manual_connect_after_exhaustion_witness :
  let failed := step true 31600 (SockClose 12 1006 EmptyString) last_attempt in
  maxReconnectAttempts <= reconnectAttempts failed
  /\ ws_open failed = false
  /\ connectionError failed = Some "Maximum reconnection attempts reached"
  /\ connectionError (connect true 40000 failed) = None
  /\ connectionError (step true 40100 (SockClose (fresh failed) 1006 EmptyString)
                        (connect true 40000 failed))
     = Some "Maximum reconnection attempts reached".
Proof.
  cbv zeta.
  assert (H1 : maxReconnectAttempts
               <= reconnectAttempts
                    (step true 31600 (SockClose 12 1006 EmptyString) last_attempt))
    by (vm_compute; discriminate).
  assert (H2 : ws_open (step true 31600 (SockClose 12 1006 EmptyString) last_attempt)
               = false) by (vm_compute; reflexivity).
  destruct (manual_connect_after_exhaustion 40000 40100 1006 EmptyString _ H1 H2)
    as (Hc & _ & _ & _ & _ & He & _).
  split; [exact H1|]. split; [exact H2|]. split; [vm_compute; reflexivity|].
  split; [exact Hc | exact He].
Defined.

(** ** Sockets that outlive [ws.current] *)

Lemma stopPing_isConnected s : isConnected (stopPing s) = isConnected s.
Proof. unfold stopPing. by case_match. Qed.

Lemma stopPing_isConnecting s : isConnecting (stopPing s) = isConnecting s.
Proof. unfold stopPing. by case_match. Qed.

Lemma stopPing_stops s :
  ping_unique s ->
  pingInterval (stopPing s) = None
  /\ map_Forall (fun _ t => action t <> Ping) (timers (stopPing s)).
Proof.
  intros Hu. unfold stopPing. destruct (pingInterval s) as [id|] eqn:Hp.
  - split; [done|]. cbn [timers set_pingInterval clearTimeout set_timers].
    intros i t Hi Ha. apply lookup_delete_Some in Hi as [Hne Hi].
    pose proof (Hu i t Hi Ha) as H. rewrite Hp in H. congruence.
  - split; [done|]. intros i t Hi Ha.
    pose proof (Hu i t Hi Ha) as H. rewrite Hp in H. discriminate.
Qed.

Lemma onclose_stops_ping now code reason s :
  ping_unique s ->
  let s' := onclose now code reason s in
  (isConnected s' = false /\ isConnecting s' = false) /\ pingInterval s' = None
  /\ map_Forall (fun _ t => action t <> Ping) (timers s')
  /\ ws s' = ws s /\ sockets s' = sockets s.
Proof.
  intros Hu s'. subst s'. unfold onclose.
  set (s1 := stopPing (set_isConnecting false (set_isConnected false s))).
  assert (H1 : isConnected s1 = false /\ isConnecting s1 = false)
    by (subst s1; by rewrite stopPing_isConnected, stopPing_isConnecting).
  assert (H2 : pingInterval s1 = None
               /\ map_Forall (fun _ t => action t <> Ping) (timers s1))
    by (subst s1; by apply stopPing_stops).
  destruct H2 as [H2 H3].
  assert (H4 : ws s1 = ws s) by (subst s1; by rewrite stopPing_ws).
  assert (H5 : sockets s1 = sockets s) by (subst s1; by rewrite stopPing_sockets).
  repeat case_match; (split; [done|]); (split; [done|]); (split; [|done]).
  - cbn [timers set_reconnectTimeout setTimeout set_fresh set_timers addLog set_eventLogs].
    apply map_Forall_insert_2; [done|exact H3].
  - exact H3.
  - exact H3.
Qed.

(** X15.  The [close] event of a socket that is no longer [ws.current]
    still runs the hook's [onclose]: after a disconnect and a new connect,
    the late close of the old socket marks the hook disconnected and stops
    the heartbeat of the new connection, although [ws.current] stays open.
    From then on [connect()] returns at once: the status panel shows the
    Connect button, which does nothing, and no Disconnect button, and
    [handleDiscoverCameras] refuses with [Please connect to the server
    first]. *)
Theorem stale_close_clobbers_new_connection :
  forall url_ok now later old new code reason s,
    connected_to s new ->
    old <> new ->
    socket_state s old = Some CLOSING ->
    ping_unique s ->
    let s' := step url_ok now (SockClose old code reason) s in
    isConnected s' = false
    /\ pingInterval s' = None
    /\ map_Forall (fun _ t => action t <> Ping) (timers s')
    /\ connected_to s' new
    /\ connect url_ok later s' = s'
    /\ ConnectionStatus.connect_button s' = true
    /\ ConnectionStatus.disconnect_button s' = false
    /\ (forall text,
          App.handleDiscoverCameras later text s'
          = addLog later Error "Please connect to the server first" VUndef s').
Proof.
  intros url_ok now later old new code reason s [Hws Hopen] Hne Hold Hu s'.
  assert (Hs' : s' = onclose now code reason (set_readyState old CLOSED s)).
  { subst s'. cbn [step]. by rewrite Hold. }
  assert (Hu1 : ping_unique (set_readyState old CLOSED s)) by exact Hu.
  destruct (onclose_stops_ping now code reason _ Hu1) as ([H1 H1'] & H2 & H3 & H4 & H5).
  rewrite <- Hs' in H1, H1', H2, H3, H4, H5.
  assert (Hc : connected_to s' new).
  { split; [by rewrite H4|]. unfold socket_state. rewrite H5.
    cbn [sockets set_readyState set_sockets].
    rewrite lookup_alter_ne by done. exact Hopen. }
  split; [done|]. split; [done|]. split; [done|]. split; [done|].
  split.
  { unfold connect. destruct Hc as [Hc1 Hc2].
    assert (ws_open s' = true) as -> by (unfold ws_open; by rewrite Hc1, Hc2).
    done. }
  unfold ConnectionStatus.connect_button, ConnectionStatus.disconnect_button,
    App.handleDiscoverCameras.
  rewrite H1, H1'. done.
Qed.

Lemma stale_close_clobbers_new_connection_witness :
  let s := run true [(50, Disconnect); (60, Connect); (70, SockOpen 3)] connected in
  connected_to s 3 /\ 1%nat <> 3%nat /\ socket_state s 1 = Some CLOSING
  /\ ping_unique s /\ isConnected s = true /\ pingInterval s = Some 4%nat
  /\ isConnected (step true 80 (SockClose 1 1000 "User disconnect") s) = false
  /\ pingInterval (step true 80 (SockClose 1 1000 "User disconnect") s) = None
  /\ connected_to (step true 80 (SockClose 1 1000 "User disconnect") s) 3.
Proof.
  cbv zeta.
  set (s := run true [(50, Disconnect); (60, Connect); (70, SockOpen 3)] connected).
  assert (H1 : connected_to s 3) by (vm_compute; split; reflexivity).
  assert (H2 : 1%nat <> 3%nat) by lia.
  assert (H3 : socket_state s 1 = Some CLOSING) by (vm_compute; reflexivity).
  assert (H4 : ping_unique s) by (apply (bool_decide_unpack _); vm_compute; exact I).
  destruct (stale_close_clobbers_new_connection true 80 90 1%nat 3%nat 1000
              "User disconnect" s H1 H2 H3 H4) as (Ha & Hb & _ & Hc & _).
  split; [exact H1|]. split; [exact H2|]. split; [exact H3|]. split; [exact H4|].
  split; [vm_compute; reflexivity|]. split; [vm_compute; reflexivity|].
  split; [exact Ha|]. split; [exact Hb|exact Hc].
Defined.

(** X16.  [connect()] does not cancel a pending reconnect timer.  A manual
    connect during the backoff opens a socket and leaves the timer armed;
    if the timer runs while that socket is still connecting, it opens a
    second socket and moves [ws.current] to it, and the first socket stays
    alive with the hook's handlers attached. *)
Theorem connect_keeps_reconnect_timer :
  forall now later id at_ s,
    reconnect_scheduled s id at_ ->
    ws_open s = false ->
    at_ <= later ->
    let s1 := connect true now s in
    let s2 := fire true later id s1 in
    reconnect_scheduled s1 id at_
    /\ ws s1 = Some (fresh s)
    /\ socket_state s1 (fresh s) = Some CONNECTING
    /\ ws s2 = Some (S (fresh s))
    /\ socket_state s2 (fresh s) = Some CONNECTING
    /\ socket_state s2 (S (fresh s)) = Some CONNECTING
    /\ reconnectAttempts s2 = reconnectAttempts s + 1.
Proof.
  intros now later id at_ s Hr Hopen Hdue s1 s2.
  assert (Hs1 : s1 = set_ws (Some (fresh s))
        (set_fresh (S (fresh s))
           (set_sockets (<[fresh s := mkSocket CONNECTING [] None]> (sockets s))
              (set_connectionError None (set_isConnecting true s))))).
  { subst s1. unfold connect. by rewrite Hopen. }
  assert (Hr1 : reconnect_scheduled s1 id at_) by (by rewrite Hs1).
  assert (Hst : socket_state s1 (fresh s) = Some CONNECTING).
  { rewrite Hs1. unfold socket_state.
    cbn [sockets set_ws set_fresh set_sockets]. by rewrite lookup_insert_eq. }
  split; [exact Hr1|]. split; [by rewrite Hs1|]. split; [exact Hst|].
  set (s1' := set_reconnectAttempts (reconnectAttempts (clearTimeout id s1) + 1)
                (clearTimeout id s1)).
  assert (Hs2 : s2 = connect true later s1').
  { subst s2. unfold fire. unfold reconnect_scheduled in Hr1. rewrite Hr1.
    cbn [due action]. apply Z.leb_le in Hdue. by rewrite Hdue. }
  assert (Hopen1 : ws_open s1' = false).
  { unfold ws_open. change (ws s1') with (ws s1).
    change (socket_state s1' ?x) with (socket_state s1 x).
    assert (ws s1 = Some (fresh s)) as -> by (by rewrite Hs1). by rewrite Hst. }
  assert (Hf : fresh s1' = S (fresh s)) by (subst s1'; by rewrite Hs1).
  assert (Hsock : sockets s1' = sockets s1) by done.
  rewrite Hs2. unfold connect. rewrite Hopen1.
  cbn [ws fresh sockets set_ws set_fresh set_sockets set_connectionError
       set_isConnecting reconnectAttempts socket_state].
  rewrite Hf. split; [done|]. unfold socket_state.
  cbn [ws fresh sockets set_ws set_fresh set_sockets set_connectionError
       set_isConnecting reconnectAttempts].
  rewrite Hsock. split.
  - rewrite lookup_insert_ne by lia. exact Hst.
  - split; [by rewrite lookup_insert_eq|]. subst s1'. by rewrite Hs1.
Qed.

Lemma connect_keeps_reconnect_timer_witness :
  let s := step true 100 (SockClose 1 1006 EmptyString) connected in
  reconnect_scheduled s 3 1100 /\ ws_open s = false /\ 1100 <= 1100
  /\ isConnecting s = false /\ isConnected s = false
  /\ ws (fire true 1100 3 (connect true 500 s)) = Some 5%nat
  /\ socket_state (fire true 1100 3 (connect true 500 s)) 4 = Some CONNECTING
  /\ socket_state (fire true 1100 3 (connect true 500 s)) 5 = Some CONNECTING.
Proof.
  cbv zeta.
  set (s := step true 100 (SockClose 1 1006 EmptyString) connected).
  assert (H1 : reconnect_scheduled s 3 1100) by (vm_compute; reflexivity).
  assert (H2 : ws_open s = false) by (vm_compute; reflexivity).
  assert (H3 : 1100 <= 1100) by lia.
  destruct (connect_keeps_reconnect_timer 500 1100 3%nat 1100 s H1 H2 H3)
    as (_ & _ & _ & Ha & Hb & Hc & _).
  split; [exact H1|]. split; [exact H2|]. split; [exact H3|].
  split; [vm_compute; reflexivity|]. split; [vm_compute; reflexivity|].
  split; [exact Ha|]. split; [exact Hb|exact Hc].
Defined.

(** ** The earlier revision *)

Lemma socket_state_closing sock s :
  socket_state s sock = Some OPEN ->
  socket_state (Earlier.socket_close sock s) sock = Some CLOSING.
Proof.
  intros H. unfold Earlier.socket_close. rewrite H. unfold socket_state in *.
  cbn [sockets set_readyState set_sockets]. rewrite lookup_alter_eq.
  by destruct (sockets s !! sock).
Qed.

Lemma earlier_disconnect_state now sock s :
  connected_to s sock ->
  let s1 := Earlier.disconnect now s in
  ws s1 = None /\ socket_state s1 sock = Some CLOSING
  /\ isConnected s1 = false /\ isConnecting s1 = false
  /\ reconnectAttempts s1 = 0 /\ fresh s1 = fresh s
  /\ timers s1 ⊆ timers s.
Proof.
  intros [Hws Hopen] s1. subst s1. unfold Earlier.disconnect.
  set (s1 := match reconnectTimeout s with
             | Some id => clearTimeout id s
             | None => s
             end).
  assert (H1 : ws s1 = ws s /\ sockets s1 = sockets s /\ fresh s1 = fresh s
               /\ timers s1 ⊆ timers s).
  { subst s1. destruct (reconnectTimeout s); [|done].
    repeat split. apply delete_subseteq. }
  destruct H1 as (Hw1 & Hs1 & Hf1 & Ht1).
  rewrite Hw1, Hws.
  assert (Ho1 : socket_state s1 sock = Some OPEN)
    by (unfold socket_state; by rewrite Hs1).
  pose proof (socket_state_closing sock s1 Ho1) as Hc.
  assert (Hx : fresh (Earlier.socket_close sock s1) = fresh s1
               /\ timers (Earlier.socket_close sock s1) = timers s1).
  { unfold Earlier.socket_close. by repeat case_match. }
  destruct Hx as [Hx1 Hx2].
  split; [done|]. split; [exact Hc|]. split; [done|]. split; [done|].
  split; [done|]. split.
  - cbn [fresh addLog set_eventLogs set_reconnectAttempts set_isConnecting
         set_isConnected set_ws]. congruence.
  - cbn [timers addLog set_eventLogs set_reconnectAttempts set_isConnecting
         set_isConnected set_ws]. by rewrite Hx2.
Qed.

Lemma earlier_onclose_schedules now s :
  reconnectAttempts s < maxReconnectAttempts ->
  let s' := Earlier.onclose now s in
  reconnect_scheduled s' (fresh s) (now + 2 ^ reconnectAttempts s * 1000)
  /\ fresh s' = S (fresh s) /\ ws s' = ws s /\ sockets s' = sockets s
  /\ reconnectAttempts s' = reconnectAttempts s.
Proof.
  intros Ha s'. subst s'. unfold Earlier.onclose.
  cbn [reconnectAttempts set_isConnecting set_isConnected].
  apply Z.ltb_lt in Ha. rewrite Ha. unfold reconnect_scheduled.
  cbn [timers fresh ws sockets reconnectAttempts set_reconnectTimeout setTimeout
       set_fresh set_timers addLog set_eventLogs set_isConnecting set_isConnected].
  by rewrite lookup_insert_eq.
Qed.

(** X17.  In the earlier revision a disconnect does not last: [close()]
    carries no code and [onclose] does not look at one, so the close event
    that follows [disconnect()] finds the attempt counter reset to 0 and arms
    a reconnect one second later; when that timer runs the hook opens a new
    socket. *)
Theorem earlier_disconnect_reconnects :
  forall now later sock s,
    connected_to s sock ->
    let s1 := Earlier.disconnect now s in
    let s2 := Earlier.onclose later (set_readyState sock CLOSED s1) in
    let s3 := fire true (later + 1000) (fresh s) s2 in
    ws s1 = None /\ socket_state s1 sock = Some CLOSING /\ isConnected s1 = false
    /\ reconnect_scheduled s2 (fresh s) (later + 1000)
    /\ ws s3 = Some (S (fresh s))
    /\ socket_state s3 (S (fresh s)) = Some CONNECTING
    /\ isConnecting s3 = true.
Proof.
  intros now later sock s Hc s1 s2 s3.
  destruct (earlier_disconnect_state now sock s Hc)
    as (Hw & Hcl & Hi & _ & Ha & Hf & _).
  fold s1 in Hw, Hcl, Hi, Ha, Hf.
  split; [done|]. split; [done|]. split; [done|].
  set (s1' := set_readyState sock CLOSED s1) in *.
  assert (Ha' : reconnectAttempts s1' < maxReconnectAttempts)
    by (change (reconnectAttempts s1') with (reconnectAttempts s1); by rewrite Ha).
  destruct (earlier_onclose_schedules later s1' Ha') as (Hr & Hf2 & Hw2 & Hs2 & _).
  fold s2 in Hr, Hf2, Hw2, Hs2.
  change (reconnectAttempts s1') with (reconnectAttempts s1) in Hr.
  change (fresh s1') with (fresh s1) in Hr, Hf2.
  rewrite Ha, Hf in Hr. rewrite Hf in Hf2.
  change (later + 2 ^ 0 * 1000) with (later + 1 * 1000) in Hr.
  replace (later + 1 * 1000) with (later + 1000) in Hr by lia.
  split; [exact Hr|].
  assert (Hs3 : s3 = connect true (later + 1000)
                       (set_reconnectAttempts
                          (reconnectAttempts (clearTimeout (fresh s) s2) + 1)
                          (clearTimeout (fresh s) s2))).
  { subst s3. unfold fire. unfold reconnect_scheduled in Hr. rewrite Hr.
    cbn [due action]. by rewrite Z.leb_refl. }
  rewrite Hs3. unfold connect.
  assert (ws_open (set_reconnectAttempts
                     (reconnectAttempts (clearTimeout (fresh s) s2) + 1)
                     (clearTimeout (fresh s) s2)) = false) as ->.
  { unfold ws_open. cbn [ws set_reconnectAttempts clearTimeout set_timers].
    change (ws s1') with (ws s1) in Hw2. by rewrite Hw2, Hw. }
  cbn [ws fresh sockets isConnecting set_ws set_fresh set_sockets
       set_connectionError set_isConnecting set_reconnectAttempts clearTimeout
       set_timers].
  rewrite Hf2. split; [done|]. split; [|done].
  unfold socket_state.
  cbn [ws fresh sockets isConnecting set_ws set_fresh set_sockets
       set_connectionError set_isConnecting set_reconnectAttempts clearTimeout
       set_timers].
  by rewrite lookup_insert_eq.
Qed.

Lemma earlier_disconnect_reconnects_witness :
  connected_to connected 1
  /\ reconnect_scheduled
       (Earlier.onclose 60 (set_readyState 1 CLOSED (Earlier.disconnect 50 connected)))
       3 1060
  /\ ws (fire true 1060 3
           (Earlier.onclose 60
              (set_readyState 1 CLOSED (Earlier.disconnect 50 connected))))
     = Some 4%nat.
Proof.
  assert (H1 : connected_to connected 1) by (vm_compute; split; reflexivity).
  destruct (earlier_disconnect_reconnects 50 60 1%nat connected H1)
    as (_ & _ & _ & Hr & Hw & _).
  split; [exact H1|]. split; [exact Hr | exact Hw].
Defined.

(** X18.  In the earlier revision a message for which no reply is awaited (no
    [command] property, or a command for which [getResponseType] gives
    [null]) is sent, but its promise is left pending with no handler and no
    timer that could settle it; the later revision resolves it with
    [{ success: true }]. *)
Theorem earlier_unmapped_command_never_settles :
  forall now message text sock s,
    connected_to s sock ->
    out_json message = Some text ->
    match out_command message with
    | Some command => getResponseType (to_str command) = None
    | None => True
    end ->
    let s' := Earlier.sendMessage now message s in
    promise s' (fresh s) = Some Pending
    /\ messageHandlers s' = messageHandlers s
    /\ timers s' = timers s
    /\ (sent <$> sockets s' !! sock)
       = ((fun so => (sent so ++ [text])%list) <$> sockets s !! sock)
    /\ promise (sendMessage now message s) (fresh s) = Some (Resolved ack).
Proof.
  intros now message text sock s Hc Hjson Hcmd s'.
  assert (Hno : no_reply_expected message).
  { unfold no_reply_expected. destruct (out_command message); [by right|done]. }
  destruct (sendMessage_no_reply now message text sock s Hc Hjson Hno) as (Hl & _).
  split; [|split; [|split; [|split; [|exact Hl]]]].
  all: subst s'; unfold Earlier.sendMessage; destruct Hc as [Hws Hopen].
  all: assert (Hws0 : ws (new_promise s) = Some sock) by done.
  all: assert (Hopen0 : ws_open (new_promise s) = true)
         by (unfold ws_open; rewrite Hws0;
             change (socket_state (new_promise s) sock) with (socket_state s sock);
             by rewrite Hopen).
  all: rewrite Hws0, Hopen0, Hjson.
  all: assert (Hs1 :
         match out_command message with
         | Some command =>
             match getResponseType (to_str command) with
             | Some responseType =>
                 setTimeout now 10000 (RequestTimeout (fresh s) responseType)
                   (set_messageHandlers
                      (<[responseType := OneShot (fresh s) responseType]>
                         (messageHandlers (socket_send sock text (new_promise s))))
                      (socket_send sock text (new_promise s)))
             | None => socket_send sock text (new_promise s)
             end
         | None => socket_send sock text (new_promise s)
         end = socket_send sock text (new_promise s))
         by (destruct (out_command message); [by rewrite Hcmd|done]).
  all: rewrite Hs1.
  - apply promise_new.
  - done.
  - done.
  - cbn [sockets socket_send set_sockets new_promise set_fresh set_promises].
    rewrite lookup_alter_eq. by destruct (sockets s !! sock).
Qed.

Lemma earlier_unmapped_command_never_settles_witness :
  connected_to connected 1
  /\ promise (Earlier.sendMessage 3 (command "reboot") connected) 3 = Some Pending
  /\ promise (sendMessage 3 (command "reboot") connected) 3 = Some (Resolved ack).
Proof.
  assert (H1 : connected_to connected 1) by (vm_compute; split; reflexivity).
  destruct (earlier_unmapped_command_never_settles 3 (command "reboot") _ 1%nat
              connected H1 eq_refl eq_refl) as (Ha & _ & _ & _ & Hb).
  split; [exact H1|]. split; [exact Ha | exact Hb].
Defined.

(** ** The panel: what it shows and what it sends *)

Lemma disconnect_connectionError now s :
  connectionError (disconnect now s) = connectionError s.
Proof. unfold disconnect, stopPing, socket_close. by repeat case_match. Qed.

Lemma disconnect_flags now s :
  isConnected (disconnect now s) = false /\ isConnecting (disconnect now s) = false.
Proof. done. Qed.

(** X19.  The error text outlives the connection state.  An [error] event
    of any socket that is not closed makes the status panel show
    [Error: WebSocket connection error] in red, whether or not the hook is
    connected; [disconnect()] does not clear it, so after a disconnect the
    panel still shows the error, beside the Connect button. *)
Theorem error_text_outlives_disconnect :
  forall url_ok now later sock st s,
    socket_state s sock = Some st ->
    st <> CLOSED ->
    let s1 := step url_ok now (SockError sock) s in
    let s2 := disconnect later s1 in
    ConnectionStatus.getStatusText s1 = "Error: WebSocket connection error"
    /\ ConnectionStatus.getStatusColor s1 = "text-red-500"
    /\ ConnectionStatus.disconnect_button s1 = isConnected s
    /\ ConnectionStatus.getStatusText s2 = "Error: WebSocket connection error"
    /\ ConnectionStatus.getStatusColor s2 = "text-red-500"
    /\ ConnectionStatus.connect_button s2 = true.
Proof.
  intros url_ok now later sock st s Hst Hne s1 s2.
  assert (Hs1 : s1 = onerror now s).
  { subst s1. cbn [step]. rewrite Hst. by destruct st. }
  assert (He1 : connectionError s1 = Some "WebSocket connection error")
    by (by rewrite Hs1).
  assert (He2 : connectionError s2 = Some "WebSocket connection error")
    by (subst s2; by rewrite disconnect_connectionError).
  unfold ConnectionStatus.getStatusText, ConnectionStatus.getStatusColor,
    ConnectionStatus.shown_error, ConnectionStatus.disconnect_button,
    ConnectionStatus.connect_button.
  rewrite He1, He2. cbn [truthy String.eqb Ascii.eqb negb].
  split; [done|]. split; [done|]. split; [by rewrite Hs1|].
  split; [done|]. split; [done|].
  subst s2. by destruct (disconnect_flags later s1) as [-> ->].
Qed.

Lemma error_text_outlives_disconnect_witness :
  socket_state connected 1 = Some OPEN /\ OPEN <> CLOSED
  /\ isConnected (step true 5 (SockError 1) connected) = true
  /\ ConnectionStatus.getStatusText (step true 5 (SockError 1) connected)
     = "Error: WebSocket connection error"
  /\ ConnectionStatus.getStatusText
       (disconnect 9 (step true 5 (SockError 1) connected))
     = "Error: WebSocket connection error".
Proof.
  assert (H1 : socket_state connected 1 = Some OPEN) by (vm_compute; reflexivity).
  assert (H2 : OPEN <> CLOSED) by discriminate.
  destruct (error_text_outlives_disconnect true 5 9 1%nat OPEN connected H1 H2)
    as (Ha & _ & _ & Hb & _).
  split; [exact H1|]. split; [exact H2|]. split; [vm_compute; reflexivity|].
  split; [exact Ha | exact Hb].
Defined.

(** *** Requests *)



Lemma string_field_valued k x : Forall string_valued (App.string_field k x).
Proof.
  unfold App.string_field. destruct x as [v|]; [|by constructor].
  destruct (truthy (VStr v)); repeat constructor. by exists v.
Qed.

Lemma number_field_valued k x : Forall string_valued (App.number_field k x).
Proof.
  unfold App.number_field. destruct x as [n|]; [|by constructor].
  destruct (truthy (VNum n)); repeat constructor. by eexists.
Qed.

Lemma bool_field_valued k x : Forall string_valued (App.bool_field k x).
Proof.
  unfold App.bool_field. destruct x as [b|]; repeat constructor. by eexists.
Qed.

Lemma message_string_valued r : Forall string_valued (App.message r).
Proof.
  destruct r; cbn [App.message];
    repeat first
      [ apply Forall_nil_2
      | apply Forall_cons_2; [by eexists|]
      | apply Forall_app_2
      | apply string_field_valued
      | apply number_field_valued
      | apply bool_field_valued ].
  destruct (App.position options) as [p|]; [|by constructor].
  destruct (truthy (VStr p) && negb (String.eqb p "unknown")); repeat constructor.
  by eexists.
Qed.

Lemma message_command r :
  exists name tag,
    assoc "command" (App.message r) = VStr name
    /\ getResponseType name = Some (Tag tag)
    /\ name <> "ping".
Proof.
  destruct r; cbn [App.message assoc app String.eqb Ascii.eqb Bool.eqb];
    eexists _, _; (split; [reflexivity|]); (split; [reflexivity|]); discriminate.
Qed.

(** X20.  Every request of the control panel awaits a reply.  Whatever its
    arguments, the object that a handler of App passes to [sendMessage] has
    only string values and a [command] of the static table, so on an open
    socket the hook leaves its promise pending, registers the one-time
    handler under the reply tag and arms the ten-second timer; no request of
    the panel is resolved at once. *)
Theorem app_requests_await_replies :
  forall now r text sock s,
    connected_to s sock ->
    let s' := App.send now r text s in
    Forall string_valued (App.message r)
    /\ exists tag,
         getResponseType (to_str (assoc "command" (App.message r))) = Some (Tag tag)
         /\ promise s' (fresh s) = Some Pending
         /\ messageHandlers s' !! Tag tag = Some (OneShot (fresh s) (Tag tag))
         /\ timers s' !! S (fresh s)
            = Some (mkTimer (now + 10000) (RequestTimeout (fresh s) (Tag tag))).
Proof.
  intros now r text sock s Hc s'. split; [apply message_string_valued|].
  destruct (message_command r) as (name & tag & Hn & Ht & Hp).
  exists tag. rewrite Hn. cbn [to_str]. split; [exact Ht|].
  assert (Hs' : s' = sendMessage now (request name text) s)
    by (subst s'; unfold App.send, request; by rewrite Hn).
  rewrite Hs', (sendMessage_request now name text sock (Tag tag) s Hc Ht Hp).
  split; [|split].
  - apply promise_new.
  - cbn [messageHandlers setTimeout set_fresh set_timers set_messageHandlers].
    by rewrite lookup_insert_eq.
  - cbn [timers fresh setTimeout set_fresh set_timers set_messageHandlers
         socket_send set_sockets new_promise set_promises].
    by rewrite lookup_insert_eq.
Qed.

Lemma app_requests_await_replies_witness :
  connected_to connected 1
  /\ promise (App.send 3 (App.SingleShot 2) "{}" connected) 3 = Some Pending
  /\ messageHandlers (App.send 3 (App.SingleShot 2) "{}" connected) !! Tag "shot_result"
     = Some (OneShot 3 (Tag "shot_result")).
Proof.
  assert (H1 : connected_to connected 1) by (vm_compute; split; reflexivity).
  destruct (app_requests_await_replies 3 (App.SingleShot 2) "{}" 1%nat connected H1)
    as (_ & tag & Ht & Hp & Hh & _).
  assert (tag = "shot_result") as -> by (vm_compute in Ht; congruence).
  split; [exact H1|]. split; [exact Hp | exact Hh].
Defined.

(** X21.  Camera 0 cannot be addressed by [handleSetCameraSetting]: the
    id is tested for truthiness, so with [cameraId: 0] the request carries
    no [camera_id], it is the very request made without a camera, and the
    success log names the master camera.  Every other id that is a safe
    integer is sent as its decimal text. *)
Theorem camera_zero_is_not_addressed :
  forall settingType settingValue all master,
    let with_zero := App.mkSettingOptions (Some 0) all master in
    let without := App.mkSettingOptions None all master in
    App.message (App.SetCameraSetting settingType settingValue with_zero)
    = App.message (App.SetCameraSetting settingType settingValue without)
    /\ App.setting_target with_zero = App.setting_target without
    /\ (all <> Some true -> App.setting_target with_zero = "master camera")
    /\ (forall n, n <> 0 -> App.safe_integer n ->
          assoc "camera_id"
            (App.message (App.SetCameraSetting settingType settingValue
                            (App.mkSettingOptions (Some n) all master)))
          = VStr (show_Z n)
          /\ (all <> Some true ->
              App.setting_target (App.mkSettingOptions (Some n) all master)
              = "camera " +:+ show_Z n)).
Proof.
  intros settingType settingValue all master with_zero without.
  split; [done|]. split; [done|]. split.
  - intros Hall. unfold App.setting_target. cbn [App.applyToAll App.cameraId with_zero].
    destruct all as [[]|]; done.
  - intros n Hn _. apply Z.eqb_neq in Hn. split.
    + cbn [App.message App.cameraId App.number_field truthy]. rewrite Hn.
      cbn [negb app assoc String.eqb Ascii.eqb Bool.eqb]. done.
    + intros Hall. unfold App.setting_target. cbn [App.applyToAll App.cameraId truthy].
      rewrite Hn. destruct all as [[]|]; done.
Qed.

Lemma camera_zero_is_not_addressed_witness :
  App.setting_target (App.mkSettingOptions (Some 0) None None) = "master camera"
  /\ assoc "camera_id"
       (App.message (App.SetCameraSetting "iso" "400"
                       (App.mkSettingOptions (Some 2) None None)))
     = VStr "2".
Proof.
  destruct (camera_zero_is_not_addressed "iso" "400" None None) as (_ & _ & Ha & Hb).
  split; [apply Ha; discriminate|].
  destruct (Hb 2) as [Hc _]; [lia | unfold App.safe_integer, App.MAX_SAFE_INTEGER; lia |].
  exact Hc.
Defined.

(** X22.  The first edit of a connection option discards the defaults that
    the form displays.  For a camera without stored options the form shows
    the model as alias and, when it is the only camera, the master box
    checked, and connecting sends these.  After one edit of the position the
    stored alias is the empty string and the master flag is false: the
    connect request then carries no alias and [set_master] false. *)
Theorem first_edit_drops_displayed_defaults :
  forall model count cameraIndex value connectionOptions,
    connectionOptions !! cameraIndex = None ->
    let before :=
      App.message
        (CameraDiscovery.handleConnect model count cameraIndex connectionOptions) in
    let after :=
      App.message
        (CameraDiscovery.handleConnect model count cameraIndex
           (CameraDiscovery.updateConnectionOption cameraIndex
              (CameraDiscovery.EditPosition value) connectionOptions)) in
    assoc "alias" before = (if truthy (VStr model) then VStr model else VUndef)
    /\ assoc "set_master" before = VStr (App.bool_toString (Nat.eqb count 1))
    /\ assoc "alias" after = VUndef
    /\ assoc "set_master" after = VStr "false".
Proof.
  intros model count cameraIndex value connectionOptions Hnone before after.
  subst before after.
  unfold CameraDiscovery.handleConnect, CameraDiscovery.options_of,
    CameraDiscovery.updateConnectionOption.
  rewrite lookup_insert_eq, Hnone.
  cbn [from_option id CameraDiscovery.assign CameraDiscovery.position
       CameraDiscovery.alias CameraDiscovery.setMaster App.message App.position
       App.alias App.setMaster App.string_field App.bool_field].
  split; [|split; [|split]].
  - destruct (truthy (VStr model)); reflexivity.
  - destruct (truthy (VStr model)); reflexivity.
  - destruct (truthy (VStr value) && negb (String.eqb value "unknown")); reflexivity.
  - destruct (truthy (VStr value) && negb (String.eqb value "unknown")); reflexivity.
Qed.

Lemma first_edit_drops_displayed_defaults_witness :
  (∅ : gmap Z CameraDiscovery.Options) !! 0 = None
  /\ assoc "alias" (App.message (CameraDiscovery.handleConnect "ILCE-7M4" 1 0 ∅))
     = VStr "ILCE-7M4"
  /\ assoc "set_master" (App.message (CameraDiscovery.handleConnect "ILCE-7M4" 1 0 ∅))
     = VStr "true"
  /\ assoc "alias"
       (App.message
          (CameraDiscovery.handleConnect "ILCE-7M4" 1 0
             (CameraDiscovery.updateConnectionOption 0
                (CameraDiscovery.EditPosition "left") ∅)))
     = VUndef.
Proof.
  assert (H0 : (∅ : gmap Z CameraDiscovery.Options) !! 0 = None) by apply lookup_empty.
  destruct (first_edit_drops_displayed_defaults "ILCE-7M4" 1 0 "left" ∅ H0)
    as (Ha & Hb & Hc & _).
  split; [exact H0|]. split; [exact Ha|]. split; [exact Hb | exact Hc].
Defined.

(** ** The settings chosen for synchronisation *)

Lemma includes_In key l : CameraSettings.includes key l = true <-> In key l.
Proof.
  unfold CameraSettings.includes. rewrite existsb_exists. split.
  - intros (x & Hx & He). apply String.eqb_eq in He. by subst.
  - intros H. exists key. split; [done|apply String.eqb_refl].
Qed.

Lemma click_selection sel key :
  In key CameraSettings.SETTING_TYPES ->
  List.NoDup sel /\ incl sel CameraSettings.SETTING_TYPES ->
  List.NoDup (CameraSettings.click sel key)
  /\ incl (CameraSettings.click sel key) CameraSettings.SETTING_TYPES.
Proof.
  intros Hk [Hnd Hin]. unfold CameraSettings.click, CameraSettings.onChange.
  destruct (CameraSettings.includes key sel) eqn:Hi; cbn [negb].
  - split; [by apply List.NoDup_filter|].
    intros x Hx. apply List.filter_In in Hx as [Hx _]. by apply Hin.
  - assert (Hni : ~ In key sel).
    { intros H. apply includes_In in H. congruence. }
    split.
    + apply NoDup_ListNoDup, NoDup_app. split; [by apply NoDup_ListNoDup|].
      split; [|apply NoDup_singleton].
      intros x Hx Hx'. apply list_elem_of_singleton in Hx'. subst.
      by apply list_elem_of_In in Hx.
    + intros x Hx. apply List.in_app_iff in Hx as [Hx|[<-|[]]]; [by apply Hin|done].
Qed.

Lemma clicks_selection clicks sel :
  Forall (fun k => In k CameraSettings.SETTING_TYPES) clicks ->
  List.NoDup sel /\ incl sel CameraSettings.SETTING_TYPES ->
  let sel' := fold_left CameraSettings.click clicks sel in
  List.NoDup sel' /\ incl sel' CameraSettings.SETTING_TYPES.
Proof.
  intros Hc. revert sel. induction Hc as [|k rest Hk _ IH]; intros sel Hs; [done|].
  cbn [fold_left]. apply IH. by apply click_selection.
Qed.

Lemma setting_key_cases k :
  In k CameraSettings.SETTING_TYPES ->
  k = "aperture" \/ k = "iso" \/ k = "shutter_speed" \/ k = "white_balance"
  \/ k = "focus_mode" \/ k = "exposure_mode".
Proof. cbn. intuition. Qed.

Lemma join_settings sel :
  incl sel CameraSettings.SETTING_TYPES ->
  join "," sel <> "all" /\ (sel <> [] -> truthy (VStr (join "," sel)) = true).
Proof.
  intros Hin. destruct sel as [|x rest]; [split; [discriminate|done]|].
  assert (Hx : In x CameraSettings.SETTING_TYPES) by (apply Hin; by left).
  apply setting_key_cases in Hx.
  destruct rest as [|y rest]; cbn [join].
  - split; [|intros _]; destruct Hx as [-> | [-> | [-> | [-> | [-> | ->]]]]]; done.
  - split; [|intros _]; destruct Hx as [-> | [-> | [-> | [-> | [-> | ->]]]]];
      cbn [append truthy String.eqb Ascii.eqb Bool.eqb negb]; done.
Qed.

(** X23.  The settings named in the sync request.  Whatever boxes are
    clicked, the selection has no duplicates; [handleSyncMaster] asks for
    [all] exactly when every setting type is selected, for the comma list of
    the selection in the order of selection when some but not all are, and
    sends no [settings_to_sync] at all when none is: App drops the empty
    string. *)
Theorem sync_request_names_the_selection :
  forall clicks,
    Forall (fun k => In k CameraSettings.SETTING_TYPES) clicks ->
    let sel := fold_left CameraSettings.click clicks CameraSettings.syncSettings0 in
    let msg := App.message (CameraSettings.handleSyncMaster sel) in
    List.NoDup sel
    /\ (assoc "settings_to_sync" msg = VStr "all"
        <-> forall k, In k CameraSettings.SETTING_TYPES -> In k sel)
    /\ (sel = [] -> msg = [("command", VStr "sync_master_settings")])
    /\ (sel <> [] -> (exists k, In k CameraSettings.SETTING_TYPES /\ ~ In k sel) ->
        assoc "settings_to_sync" msg = VStr (join "," sel)).
Proof.
  intros clicks Hc sel msg.
  assert (H0 : List.NoDup CameraSettings.syncSettings0
               /\ incl CameraSettings.syncSettings0 CameraSettings.SETTING_TYPES).
  { split.
    - apply NoDup_ListNoDup. apply (bool_decide_unpack _). vm_compute. exact I.
    - intros x Hx. cbn in *. intuition. }
  destruct (clicks_selection clicks _ Hc H0) as [Hnd Hin]. fold sel in Hnd, Hin.
  assert (Hkeys : List.NoDup CameraSettings.SETTING_TYPES).
  { apply NoDup_ListNoDup. apply (bool_decide_unpack _). vm_compute. exact I. }
  destruct (join_settings sel Hin) as [Hja Hjt].
  assert (Hlen : Nat.eqb (length sel) (length CameraSettings.SETTING_TYPES) = true
                 <-> forall k, In k CameraSettings.SETTING_TYPES -> In k sel).
  { rewrite Nat.eqb_eq. split.
    - intros Hl. apply (List.NoDup_length_incl Hnd); [lia|exact Hin].
    - intros Hall. apply Nat.le_antisymm.
      + by apply List.NoDup_incl_length.
      + by apply List.NoDup_incl_length. }
  subst msg. unfold CameraSettings.handleSyncMaster.
  cbn [App.message App.string_field].
  destruct (Nat.eqb (length sel) (length CameraSettings.SETTING_TYPES)) eqn:Hl.
  - split; [done|]. split; [|split].
    + split; [intros _; by apply Hlen|done].
    + intros ->. discriminate.
    + intros _ (k & Hk & Hnk). exfalso. apply Hnk. by apply Hlen.
  - split; [done|]. split; [|split].
    + split.
      * destruct (truthy (VStr (join "," sel))); cbn; [congruence|discriminate].
      * intros Hall. apply Hlen in Hall. discriminate.
    + intros ->. reflexivity.
    + intros Hne _. rewrite (Hjt Hne). reflexivity.
Qed.

Lemma sync_request_names_the_selection_witness :
  Forall (fun k => In k CameraSettings.SETTING_TYPES)
    ["white_balance"; "iso"; "focus_mode"; "exposure_mode"; "iso"]
  /\ assoc "settings_to_sync"
       (App.message
          (CameraSettings.handleSyncMaster
             (fold_left CameraSettings.click
                ["white_balance"; "iso"; "focus_mode"; "exposure_mode"; "iso"]
                CameraSettings.syncSettings0)))
     = VStr "all".
Proof.
  assert (H : Forall (fun k => In k CameraSettings.SETTING_TYPES)
                ["white_balance"; "iso"; "focus_mode"; "exposure_mode"; "iso"]).
  { repeat (apply Forall_cons_2; [cbn; intuition|]). apply Forall_nil_2. }
  split; [exact H|].
  destruct (sync_request_names_the_selection _ H) as (_ & Hall & _).
  apply Hall. intros k Hk. apply setting_key_cases in Hk.
  destruct Hk as [-> | [-> | [-> | [-> | [-> | ->]]]]]; vm_compute; intuition.
Defined.

(** ** The transfer path *)

Lemma handleSetTransferPath_returns response type message completion :
  App.handleSetTransferPath response = Some (type, message, completion) ->
  completion = App.Returned.
Proof.
  unfold App.handleSetTransferPath. intros H.
  repeat case_match; congruence.
Qed.

(** X24.  The transfer panel shows a path as the current one whether or not
    it was set.  [handleSetTransferPath] catches every failure and logs it,
    so the promise that [handleSetPath] awaits is always fulfilled: once the
    request has settled, in whatever way, a path that [trim] does not
    empty becomes [currentPath] and the input is cleared.  In particular, while the socket
    is not open the log says [Failed to set transfer path] and the panel
    shows the path as set. *)
Theorem unset_path_is_shown_as_current :
  forall f,
    TransferSettings.blank (TransferSettings.transferPath f) = false ->
    (forall response type message completion,
        App.handleSetTransferPath response = Some (type, message, completion) ->
        TransferSettings.handleSetPath (Some completion) f
        = TransferSettings.mkForm EmptyString
            (Some (TransferSettings.transferPath f)) false)
    /\ (forall response, response <> Pending ->
          is_Some (App.handleSetTransferPath response))
    /\ (forall now text s,
          ws_open s = false ->
          exists response,
            promise (App.send now (App.SetTransferPath (TransferSettings.transferPath f))
                       text s) (fresh s)
            = Some response
            /\ App.handleSetTransferPath response
               = Some (Error, VStr "Failed to set transfer path", App.Returned)).
Proof.
  intros f Hb. split; [|split].
  - intros response type message completion H.
    apply handleSetTransferPath_returns in H. subst.
    unfold TransferSettings.handleSetPath. by rewrite Hb.
  - intros response Hne. unfold App.handleSetTransferPath.
    destruct response as [|v|r]; [done| |by eexists].
    destruct (prop v "success") as [ok|]; [|by eexists].
    destruct (truthy ok); by eexists.
  - intros now text s Hclosed. eexists. split.
    + unfold App.send. by apply sendMessage_refused.
    + reflexivity.
Qed.

Lemma unset_path_is_shown_as_current_witness :
  let f := TransferSettings.mkForm "/photos" None false in
  TransferSettings.blank (TransferSettings.transferPath f) = false
  /\ TransferSettings.blank
       (String (Ascii.ascii_of_nat 194) (String (Ascii.ascii_of_nat 160) " ")) = true
  /\ App.handleSetTransferPath (Rejected (ErrorMsg "Request timeout"))
     = Some (Error, VStr "Failed to set transfer path", App.Returned)
  /\ TransferSettings.handleSetPath (Some App.Returned) f
     = TransferSettings.mkForm EmptyString (Some "/photos") false.
Proof.
  cbv zeta.
  assert (Hb : TransferSettings.blank
                 (TransferSettings.transferPath
                    (TransferSettings.mkForm "/photos" None false)) = false)
    by reflexivity.
  destruct (unset_path_is_shown_as_current _ Hb) as (Ha & _ & _).
  split; [exact Hb|]. split; [reflexivity|]. split; [reflexivity|].
  exact (Ha (Rejected (ErrorMsg "Request timeout")) _ _ _ eq_refl).
Defined.

(** ** The reply tags *)

Lemma responseMap_entry name tag :
  responseMap !! name = Some tag ->
  In (name, tag)
    [ ("discover", "discovery_result"); ("connect", "connect_result");
      ("disconnect", "disconnect_result"); ("status", "status");
      ("start_continuous", "continuous_result");
      ("stop_continuous", "continuous_result");
      ("single_shot", "shot_result");
      ("set_transfer_path", "transfer_path_result");
      ("get_camera_settings", "camera_settings_result");
      ("set_camera_setting", "setting_result");
      ("sync_master_settings", "sync_result");
      ("enable_auto_sync", "auto_sync_result");
      ("get_available_settings", "available_settings_result") ].
Proof.
  intros H. apply list_elem_of_In. unfold responseMap in H.
  by apply elem_of_list_to_map_2 in H.
Qed.

(** X25.  Two different commands await the same reply tag only if they are
    [start_continuous] and [stop_continuous], which both await
    [continuous_result]; every other command of the table has a reply tag of
    its own. *)
Theorem reply_tag_shared_by_continuous_only :
  forall c1 c2 tag,
    getResponseType c1 = Some (Tag tag) ->
    getResponseType c2 = Some (Tag tag) ->
    c1 <> c2 ->
    tag = "continuous_result"
    /\ (c1 = "start_continuous" /\ c2 = "stop_continuous"
        \/ c1 = "stop_continuous" /\ c2 = "start_continuous").
Proof.
  intros c1 c2 tag H1 H2 Hne.
  apply getResponseType_tag in H1 as (H1 & _). apply getResponseType_tag in H2 as (H2 & _).
  apply responseMap_entry in H1. apply responseMap_entry in H2.
  cbn [In] in H1, H2.
  repeat (destruct H1 as [H1|H1]); try done; simplify_eq;
    repeat (destruct H2 as [H2|H2]); try done; simplify_eq;
    split; auto.
Qed.

Lemma reply_tag_shared_by_continuous_only_witness :
  getResponseType "start_continuous" = Some (Tag "continuous_result")
  /\ getResponseType "stop_continuous" = Some (Tag "continuous_result")
  /\ "start_continuous" <> "stop_continuous"
  /\ "continuous_result" = "continuous_result".
Proof.
  assert (H1 : getResponseType "start_continuous" = Some (Tag "continuous_result"))
    by (vm_compute; reflexivity).
  assert (H2 : getResponseType "stop_continuous" = Some (Tag "continuous_result"))
    by (vm_compute; reflexivity).
  assert (H3 : "start_continuous" <> "stop_continuous") by discriminate.
  destruct (reply_tag_shared_by_continuous_only _ _ _ H1 H2 H3) as [Ht _].
  split; [exact H1|]. split; [exact H2|]. split; [exact H3 | exact Ht].
Defined.

